(** * UniTR admissions assistant: the decision and planning rule engine

    A shallow embedding of the four tool functions of the repository
    ([search-programs.ts], [build-eligibility-snapshot.ts],
    [build-document-checklist.ts], [build-timeline.ts]) and of the
    repository queries they call ([program.repository.ts]), followed by the
    properties of the engine that are stated about them.

    Part I holds the definitions, Part II the lemmas. *)

From Stdlib Require Import List Bool ZArith NArith QArith Lia.
From Stdlib Require Import Permutation Relation_Operators String Ascii.
Import ListNotations.

Set Warnings "-register-all".
Local Open Scope Z_scope.
Local Open Scope list_scope.

(* ================================================================== *)
(** * Part I: definitions *)
(* ================================================================== *)

(** ** Strings of the runtime

    A JavaScript string is a sequence of 16-bit code units; the regular
    expression of [normalizeKeyword] (no [u] flag), [includes], [trim] and
    [===] all work on code units.  Literals are written as Rocq strings
    (UTF-8 bytes, as in the source files) and decoded by [js]. *)
Module JsString.

Definition code_unit := N.
Definition jsstring := list code_unit.

(** UTF-8 bytes to UTF-16 code units (used for literals only; a truncated
    sequence decodes to U+FFFD). *)
Fixpoint decode_utf8 (bs : list N) : jsstring :=
  match bs with
  | [] => []
  | b1 :: r1 =>
      if (b1 <? 128)%N then b1 :: decode_utf8 r1
      else if (b1 <? 224)%N then
        match r1 with
        | b2 :: r2 => ((b1 - 192) * 64 + (b2 - 128))%N :: decode_utf8 r2
        | [] => [65533%N]
        end
      else if (b1 <? 240)%N then
        match r1 with
        | b2 :: b3 :: r3 =>
            ((b1 - 224) * 4096 + (b2 - 128) * 64 + (b3 - 128))%N
              :: decode_utf8 r3
        | _ => [65533%N]
        end
      else
        match r1 with
        | b2 :: b3 :: b4 :: r4 =>
            let cp := ((b1 - 240) * 262144 + (b2 - 128) * 4096
                       + (b3 - 128) * 64 + (b4 - 128) - 65536)%N in
            (55296 + cp / 1024)%N :: (56320 + cp mod 1024)%N
              :: decode_utf8 r4
        | _ => [65533%N]
        end
  end.

Definition js (s : string) : jsstring :=
  decode_utf8 (map N_of_ascii (list_ascii_of_string s)).

(** [a === b] on strings. *)
Fixpoint eqb (a b : jsstring) : bool :=
  match a, b with
  | [], [] => true
  | x :: a', y :: b' => (x =? y)%N && eqb a' b'
  | _, _ => false
  end.

(** [String.prototype.toLowerCase].  Exact on ASCII and on the two code
    points whose lower-case form contains an ASCII letter (U+0130 and the
    Kelvin sign U+212A); every other code unit is left as it is.  Under the
    filter of [normalizeKeyword] this agrees with the runtime on every
    string, because any other cased letter is mapped to a letter outside the
    retained class. *)
Definition lower_unit (u : code_unit) : list code_unit :=
  if ((65 <=? u) && (u <=? 90))%N then [(u + 32)%N]
  else if (u =? 304)%N then [105%N; 775%N]
  else if (u =? 8490)%N then [107%N]
  else [u].

Definition toLowerCase (s : jsstring) : jsstring := flat_map lower_unit s.

Fixpoint startsWith (s prefix : jsstring) : bool :=
  match prefix, s with
  | [], _ => true
  | p :: prefix', c :: s' => (p =? c)%N && startsWith s' prefix'
  | _ :: _, [] => false
  end.

(** [s.includes(needle)]. *)
Fixpoint includes (s needle : jsstring) : bool :=
  startsWith s needle
  || match s with
     | [] => false
     | _ :: s' => includes s' needle
     end.

(** WhiteSpace and LineTerminator of ECMA-262: what [\s] matches and what
    [trim] strips. *)
Definition is_white_space (u : code_unit) : bool :=
  (((9 <=? u) && (u <=? 13)) || (u =? 32) || (u =? 160) || (u =? 5760)
   || ((8192 <=? u) && (u <=? 8202)) || (u =? 8232) || (u =? 8233)
   || (u =? 8239) || (u =? 8287) || (u =? 12288) || (u =? 65279))%N.

Fixpoint trimStart (s : jsstring) : jsstring :=
  match s with
  | [] => []
  | u :: r => if is_white_space u then trimStart r else s
  end.

Fixpoint trimEnd (s : jsstring) : jsstring :=
  match s with
  | [] => []
  | u :: r =>
      match trimEnd r with
      | [] => if is_white_space u then [] else [u]
      | r' => u :: r'
      end
  end.

Definition trim (s : jsstring) : jsstring := trimEnd (trimStart s).

(** A string that does not start with white space. *)
Definition starts_clean (s : jsstring) : Prop :=
  match s with
  | [] => True
  | u :: _ => is_white_space u = false
  end.

(** [xs.join(sep)]. *)
Fixpoint join (sep : jsstring) (xs : list jsstring) : jsstring :=
  match xs with
  | [] => []
  | [x] => x
  | x :: rest => x ++ sep ++ join sep rest
  end.

(** [xs.includes(x)] and [xs.indexOf(x)] on an array of strings. *)
Definition array_includes (xs : list jsstring) (x : jsstring) : bool :=
  existsb (eqb x) xs.

Fixpoint indexOf_from (xs : list jsstring) (x : jsstring) (i : Z) : Z :=
  match xs with
  | [] => -1
  | y :: rest => if eqb y x then i else indexOf_from rest x (i + 1)
  end.

Definition indexOf (xs : list jsstring) (x : jsstring) : Z :=
  indexOf_from xs x 0.

(** Code points of a string, pairing surrogates: the order SQLite's BINARY
    collation gives to TEXT values is the lexicographic order of these. *)
Fixpoint code_points (s : jsstring) : list N :=
  match s with
  | [] => []
  | h :: r =>
      match r with
      | l :: r' =>
          if ((55296 <=? h) && (h <=? 56319) && (56320 <=? l) && (l <=? 57343))%N
          then (65536 + (h - 55296) * 1024 + (l - 56320))%N :: code_points r'
          else h :: code_points r
      | [] => [h]
      end
  end.

Fixpoint lex_leb (a b : list N) : bool :=
  match a, b with
  | [], _ => true
  | _ :: _, [] => false
  | x :: a', y :: b' => (x <? y)%N || ((x =? y)%N && lex_leb a' b')
  end.

Definition text_leb (a b : jsstring) : bool :=
  lex_leb (code_points a) (code_points b).

End JsString.
Import JsString.

(** ** Numbers, JSON values and the built-ins of the runtime *)
Module JsValue.

(** A Number: a rational, an infinity or NaN.  The engine only compares
    numbers, so the rounding of the runtime's doubles plays no role. *)
Inductive number : Type :=
  | NaN
  | NegInf
  | Fin (q : Q)
  | PosInf.

(** [a >= b]. *)
Definition num_ge (a b : number) : bool :=
  match a, b with
  | NaN, _ | _, NaN => false
  | PosInf, _ => true
  | _, NegInf => true
  | Fin x, Fin y => Qle_bool y x
  | _, _ => false
  end.

(** [a < b]. *)
Definition num_lt (a b : number) : bool :=
  match a, b with
  | NaN, _ | _, NaN => false
  | PosInf, _ => false
  | _, NegInf => false
  | Fin x, Fin y => negb (Qle_bool y x)
  | _, _ => true
  end.

Definition num_truthy (n : number) : bool :=
  match n with
  | NaN => false
  | Fin q => negb (Qeq_bool q 0)
  | _ => true
  end.

Definition num_of_Z (z : Z) : number := Fin (inject_Z z).

(** The value of [JSON.parse]: an object keeps its members in source
    order. *)
Inductive json : Type :=
  | JNull
  | JBool (b : bool)
  | JNum (n : number)
  | JStr (s : jsstring)
  | JArr (items : list json)
  | JObj (members : list (jsstring * json)).

(** The built-ins whose results the engine consumes but does not define:
    [parseFloat], the string-to-number conversion of [ToNumber],
    [Number.prototype.toString] (template literals) and [JSON.parse]
    ([None] when it throws a SyntaxError).  Every statement of Part II
    holds for any implementation of them. *)
Class Runtime : Type := {
  parseFloat : jsstring -> number;
  StringToNumber : jsstring -> number;
  Number_toString : number -> jsstring;
  JSON_parse : jsstring -> option json
}.

(** Own data property of an object built by [JSON.parse]: the last member
    with the name wins. *)
Fixpoint own_property (m : list (jsstring * json)) (k : jsstring)
  : option json :=
  match m with
  | [] => None
  | (k', v) :: r =>
      match own_property r k with
      | Some w => Some w
      | None => if eqb k' k then Some v else None
      end
  end.

(** [v.k] for a name [k] that no prototype defines ([type], [ielts],
    [toefl], [tomer]): the outer [None] is the TypeError of reading a
    property of [null], the inner [None] is [undefined]. *)
Definition member (v : json) (k : jsstring) : option (option json) :=
  match v with
  | JNull => None
  | JObj m => Some (own_property m k)
  | _ => Some None
  end.

(** Truthiness of a value that may be [undefined]. *)
Definition truthy (v : option json) : bool :=
  match v with
  | None | Some JNull => false
  | Some (JBool b) => b
  | Some (JNum n) => num_truthy n
  | Some (JStr s) => negb (eqb s [])
  | Some (JArr _) | Some (JObj _) => true
  end.

(** [v === s] for a string literal [s]. *)
Definition is_string (v : option json) (s : jsstring) : bool :=
  match v with
  | Some (JStr t) => eqb t s
  | _ => false
  end.

Section Coercions.
Context {R : Runtime}.

(** [ToString].  [None] is the TypeError raised for an object whose own
    [toString] member (never callable in parsed JSON) hides the inherited
    one; array elements [null] print as the empty string. *)
Fixpoint ToString (v : json) : option jsstring :=
  match v with
  | JNull => Some (js "null")
  | JBool true => Some (js "true")
  | JBool false => Some (js "false")
  | JNum n => Some (Number_toString n)
  | JStr s => Some s
  | JArr items =>
      option_map (join (js ","))
        ((fix elems (l : list json) : option (list jsstring) :=
            match l with
            | [] => Some []
            | x :: r =>
                match (match x with JNull => Some [] | _ => ToString x end),
                      elems r with
                | Some s, Some ss => Some (s :: ss)
                | _, _ => None
                end
            end) items)
  | JObj m =>
      match own_property m (js "toString") with
      | Some _ => None
      | None => Some (js "[object Object]")
      end
  end.

(** [ToNumber]. *)
Definition ToNumber (v : json) : option number :=
  match v with
  | JNull => Some (num_of_Z 0)
  | JBool true => Some (num_of_Z 1)
  | JBool false => Some (num_of_Z 0)
  | JNum n => Some n
  | JStr s => Some (StringToNumber s)
  | JArr _ => option_map StringToNumber (ToString v)
  | JObj m =>
      match own_property m (js "toString") with
      | Some _ => None
      | None => Some NaN
      end
  end.

(** [x >= v] for a number [x] and a defined value [v]. *)
Definition ge_coerced (x : number) (v : json) : option bool :=
  option_map (num_ge x) (ToNumber v).

End Coercions.

End JsValue.
Import JsValue.

(** ** The catalog ([migrate.ts]) and its queries ([program.repository.ts]) *)
Module Catalog.

(** Rows of the tables the engine reads.  TEXT columns are strings,
    INTEGER columns integers, a nullable column an [option].  The
    [intakes] column holds the JSON text of an array of labels; the row
    keeps the decoded array. *)
Record UniversityRow : Type := {
  u_id : jsstring;
  u_name_ar : jsstring;
  u_name_en : jsstring;
  u_city : jsstring;
  u_website : option jsstring
}.

Record ProgramRow : Type := {
  p_id : jsstring;
  p_university_id : jsstring;
  p_program_name_ar : jsstring;
  p_program_name_en : jsstring;
  p_degree_level : jsstring;
  p_language : jsstring;
  p_city : jsstring;
  p_tuition_min : Z;
  p_tuition_max : Z;
  p_currency : jsstring;
  p_intakes : list jsstring;
  p_active_flag : Z
}.

Record RequirementRow : Type := {
  r_id : jsstring;
  r_program_id : option jsstring;
  r_university_id : jsstring;
  r_applicant_category : jsstring;
  r_rule_type : jsstring;
  r_rule_value : jsstring;
  r_human_text_ar : jsstring;
  r_human_text_en : jsstring;
  r_required_flag : Z
}.

Record DocumentTemplateRow : Type := {
  dt_doc_key : jsstring;
  dt_label_ar : jsstring;
  dt_label_en : jsstring;
  dt_translation_required_default : Z;
  dt_notarization_required_default : Z;
  dt_notes_ar : option jsstring;
  dt_notes_en : option jsstring;
  dt_estimated_days_to_obtain : option Z
}.

Record ProgramDocumentRuleRow : Type := {
  pdr_program_id : jsstring;
  pdr_doc_key : jsstring;
  pdr_required_flag : option Z;
  pdr_translation_required : option Z;
  pdr_notarization_required : option Z;
  pdr_notes_ar : option jsstring;
  pdr_notes_en : option jsstring
}.

Record Database : Type := {
  universities : list UniversityRow;
  programs : list ProgramRow;
  requirements_table : list RequirementRow;
  document_templates : list DocumentTemplateRow;
  program_document_rules : list ProgramDocumentRuleRow
}.

(** Records returned by the repository. *)
Record RequirementOutput : Type := {
  req_id : jsstring;
  rule_type : jsstring;
  rule_value : jsstring;
  text_ar : jsstring;
  text_en : jsstring;
  req_required : bool;
  applicant_category : jsstring
}.

Record DocumentOutput : Type := {
  doc_key : jsstring;
  label_ar : jsstring;
  label_en : jsstring;
  required : bool;
  translation_required : bool;
  notarization_required : bool;
  notes_ar : option jsstring;
  notes_en : option jsstring;
  estimated_days : option Z
}.

Record UniversityInfo : Type := {
  univ_id : jsstring;
  univ_name_ar : jsstring;
  univ_name_en : jsstring;
  univ_city : jsstring;
  univ_website : option jsstring
}.

(** [ProgramDetailOutput], without the three fields no planner reads
    ([sources], [last_verified_at] and the clock-dependent
    [verification_status]). *)
Record ProgramDetailOutput : Type := {
  id : jsstring;
  university : UniversityInfo;
  program_name_ar : jsstring;
  program_name_en : jsstring;
  degree_level : jsstring;
  language : jsstring;
  city : jsstring;
  tuition_min : Z;
  tuition_max : Z;
  currency : jsstring;
  intakes : list jsstring;
  requirements : list RequirementOutput;
  documents : list DocumentOutput
}.

(** A stable sort: [before x y] says that [x] may stay in front of [y]
    (the comparator gives a result [<= 0]).  For a comparator that is a
    total preorder this is the result of [Array.prototype.sort]; for an
    ORDER BY clause, rows that tie keep the scan order. *)
Section Sorting.
Context {A : Type} (before : A -> A -> bool).

Fixpoint insert_sorted (x : A) (l : list A) : list A :=
  match l with
  | [] => [x]
  | y :: r => if before x y then x :: l else y :: insert_sorted x r
  end.

Definition stable_sort (l : list A) : list A :=
  fold_right insert_sorted [] l.

End Sorting.

(** [COALESCE(a, b)]. *)
Definition coalesce {A : Type} (a : option A) (b : A) : A :=
  match a with
  | Some v => v
  | None => b
  end.

Definition coalesce_opt {A : Type} (a b : option A) : option A :=
  match a with
  | Some v => Some v
  | None => b
  end.

(** Order of a nullable INTEGER column: NULL sorts below every value. *)
Definition sql_gtb (a b : option Z) : bool :=
  match a, b with
  | Some x, Some y => y <? x
  | Some _, None => true
  | None, _ => false
  end.

Definition sql_eqb (a b : option Z) : bool :=
  match a, b with
  | Some x, Some y => x =? y
  | None, None => true
  | _, _ => false
  end.

(** [SELECT university_id FROM programs WHERE id = ?]. *)
Definition university_of_program (db : Database) (programId : jsstring)
  : option jsstring :=
  option_map p_university_id
    (find (fun p => eqb (p_id p) programId) (programs db)).

(** The WHERE clause of [getRequirements]:
    [program_id = ? OR (program_id IS NULL AND university_id = (...))]. *)
Definition requirement_selected (db : Database) (programId : jsstring)
    (r : RequirementRow) : bool :=
  match r_program_id r with
  | Some q => eqb q programId
  | None =>
      match university_of_program db programId with
      | Some u => eqb (r_university_id r) u
      | None => false
      end
  end.

(** [ORDER BY required_flag DESC, rule_type]. *)
Definition requirement_before (a b : RequirementRow) : bool :=
  (r_required_flag b <? r_required_flag a)
  || ((r_required_flag a =? r_required_flag b)
      && text_leb (r_rule_type a) (r_rule_type b)).

Definition requirement_output (row : RequirementRow) : RequirementOutput :=
  {| req_id := r_id row;
     rule_type := r_rule_type row;
     rule_value := r_rule_value row;
     text_ar := r_human_text_ar row;
     text_en := r_human_text_en row;
     req_required := r_required_flag row =? 1;
     applicant_category := r_applicant_category row |}.

Definition getRequirements (db : Database) (programId : jsstring)
  : list RequirementOutput :=
  map requirement_output
    (stable_sort requirement_before
       (filter (requirement_selected db programId) (requirements_table db))).

(** The join of [getDocuments]:
    [program_document_rules pdr JOIN document_templates dt
     ON pdr.doc_key = dt.doc_key WHERE pdr.program_id = ?]. *)
Definition document_join (db : Database) (programId : jsstring)
  : list (ProgramDocumentRuleRow * DocumentTemplateRow) :=
  flat_map
    (fun pdr =>
       if eqb (pdr_program_id pdr) programId
       then map (fun dt => (pdr, dt))
                (filter (fun dt => eqb (pdr_doc_key pdr) (dt_doc_key dt))
                        (document_templates db))
       else [])
    (program_document_rules db).

(** [ORDER BY pdr.required_flag DESC, dt.label_en]. *)
Definition document_before
    (a b : ProgramDocumentRuleRow * DocumentTemplateRow) : bool :=
  sql_gtb (pdr_required_flag (fst a)) (pdr_required_flag (fst b))
  || (sql_eqb (pdr_required_flag (fst a)) (pdr_required_flag (fst b))
      && text_leb (dt_label_en (snd a)) (dt_label_en (snd b))).

(** The SELECT list of [getDocuments] followed by the row mapping
    ([row.required === 1] and so on). *)
Definition document_output
    (row : ProgramDocumentRuleRow * DocumentTemplateRow) : DocumentOutput :=
  let (pdr, dt) := row in
  {| doc_key := dt_doc_key dt;
     label_ar := dt_label_ar dt;
     label_en := dt_label_en dt;
     required := coalesce (pdr_required_flag pdr) 1 =? 1;
     translation_required :=
       coalesce (pdr_translation_required pdr)
                (dt_translation_required_default dt) =? 1;
     notarization_required :=
       coalesce (pdr_notarization_required pdr)
                (dt_notarization_required_default dt) =? 1;
     notes_ar := coalesce_opt (pdr_notes_ar pdr) (dt_notes_ar dt);
     notes_en := coalesce_opt (pdr_notes_en pdr) (dt_notes_en dt);
     estimated_days := dt_estimated_days_to_obtain dt |}.

Definition getDocuments (db : Database) (programId : jsstring)
  : list DocumentOutput :=
  map document_output
    (stable_sort document_before (document_join db programId)).

(** [getProgramDetail]: the program row joined to its university, or
    [None] ([null]) when the join has no row. *)
Definition getProgramDetail (db : Database) (programId : jsstring)
  : option ProgramDetailOutput :=
  match find (fun p => eqb (p_id p) programId) (programs db) with
  | None => None
  | Some p =>
      match find (fun u => eqb (p_university_id p) (u_id u))
                 (universities db) with
      | None => None
      | Some u =>
          Some {| id := p_id p;
                  university :=
                    {| univ_id := u_id u;
                       univ_name_ar := u_name_ar u;
                       univ_name_en := u_name_en u;
                       univ_city := u_city u;
                       univ_website := u_website u |};
                  program_name_ar := p_program_name_ar p;
                  program_name_en := p_program_name_en p;
                  degree_level := p_degree_level p;
                  language := p_language p;
                  city := p_city p;
                  tuition_min := p_tuition_min p;
                  tuition_max := p_tuition_max p;
                  currency := p_currency p;
                  intakes := p_intakes p;
                  requirements := getRequirements db programId;
                  documents := getDocuments db programId |}
      end
  end.

(** The envelope every tool returns ([ToolResponse<T>]): the data of a
    success, or the error of a failure.  The [metadata] time stamp is read
    from the clock and is not part of the model. *)
Inductive ToolResponse (T : Type) : Type :=
  | Success (data : T)
  | Failure (code message_ar message_en : jsstring).
Arguments Success {T} data.
Arguments Failure {T} code message_ar message_en.

(** The applicant profile as the tools' input schemas admit it. *)
Record EnglishScore : Type := {
  es_type : jsstring;
  es_score : number
}.

Record TurkishScore : Type := {
  ts_type : jsstring;
  ts_level : jsstring
}.

Record Profile : Type := {
  nationality : jsstring;
  current_education_level : jsstring;
  desired_degree_level : jsstring;
  gpa : option number;
  english_score : option EnglishScore;
  turkish_score : option TurkishScore;
  has_portfolio : option bool;
  work_experience_years : option number
}.

End Catalog.
Import Catalog.

(** ** Eligibility evaluation ([build-eligibility-snapshot.ts]) *)
Module Eligibility.

Inductive EligibilityStatus : Type :=
  | likely_eligible
  | needs_review
  | unlikely.

Record EligibilityReason : Type := {
  reason_rule_type : jsstring;
  passed : bool;
  reason_ar : jsstring;
  reason_en : jsstring;
  data_driven : bool
}.

Record EligibilitySnapshotOutput : Type := {
  status : EligibilityStatus;
  reasons : list EligibilityReason;
  missing_info : list jsstring;
  missing_fields : list jsstring;
  assumptions : list jsstring;
  disclaimer : jsstring
}.

Definition DISCLAIMER_AR : jsstring :=
  js "هذا التقييم مبني على البيانات المتوفرة وليس قراراً نهائياً بالقبول. يرجى التحقق مع الجامعة مباشرة.".
Definition DISCLAIMER_EN : jsstring :=
  js "This assessment is based on available data and is not a final admission decision. Please verify with the university directly.".

(** The three arrays [evaluateRequirement] appends to. *)
Record Notes : Type := {
  missingInfo : list jsstring;
  missingFields : list jsstring;
  noted_assumptions : list jsstring
}.

Definition no_notes : Notes :=
  {| missingInfo := []; missingFields := []; noted_assumptions := [] |}.

(** [missingInfo.push(info); missingFields.push(field)]. *)
Definition push_missing (info field : jsstring) (n : Notes) : Notes :=
  {| missingInfo := missingInfo n ++ [info];
     missingFields := missingFields n ++ [field];
     noted_assumptions := noted_assumptions n |}.

(** [assumptions.push(a)]. *)
Definition push_assumption (a : jsstring) (n : Notes) : Notes :=
  {| missingInfo := missingInfo n;
     missingFields := missingFields n;
     noted_assumptions := noted_assumptions n ++ [a] |}.

Record LevelCheck : Type := {
  lc_passed : bool;
  lc_reason_ar : jsstring;
  lc_reason_en : jsstring
}.

Definition checkEducationLevel (current desired : jsstring) : LevelCheck :=
  let levelOrder :=
    [js "high_school"; js "bachelor"; js "master"; js "phd"] in
  let currentIndex := indexOf levelOrder current in
  let appropriate :=
    {| lc_passed := true;
       lc_reason_ar := js "المستوى التعليمي مناسب";
       lc_reason_en := js "Education level is appropriate" |} in
  if (eqb desired (js "bachelor") || eqb desired (js "associate"))
     && (0 <=? currentIndex)
  then appropriate
  else if eqb desired (js "master") then
    if eqb current (js "bachelor") || eqb current (js "master")
       || eqb current (js "phd")
    then {| lc_passed := true;
            lc_reason_ar := js "لديك شهادة البكالوريوس المطلوبة";
            lc_reason_en := js "You have the required bachelor degree" |}
    else {| lc_passed := false;
            lc_reason_ar := js "برامج الماجستير تتطلب شهادة البكالوريوس";
            lc_reason_en := js "Master programs require a bachelor degree" |}
  else if eqb desired (js "phd") then
    if eqb current (js "master") || eqb current (js "phd")
    then {| lc_passed := true;
            lc_reason_ar := js "لديك شهادة الماجستير المطلوبة";
            lc_reason_en := js "You have the required master degree" |}
    else {| lc_passed := false;
            lc_reason_ar := js "برامج الدكتوراه تتطلب شهادة الماجستير";
            lc_reason_en := js "PhD programs require a master degree" |}
  else appropriate.

Section WithRuntime.
Context {R : Runtime}.

(** [x >= v] where [v] may be [undefined] (which converts to NaN). *)
Definition ge_value (x : number) (v : option json) : option bool :=
  match v with
  | Some j => ge_coerced x j
  | None => Some false
  end.

Definition levelOrder : list jsstring :=
  [js "A1"; js "A2"; js "B1"; js "B2"; js "C1"; js "C2"].

(** The body of the [try] block of the [language_proficiency] case.
    [None] means that it threw (a SyntaxError of [JSON.parse] or a
    TypeError); nothing has been pushed at any point where that can
    happen.  [Some] carries the value returned by [evaluateRequirement]
    (the fall-through [break] returns [null]). *)
Definition language_proficiency_try (req : RequirementOutput)
    (profile : Profile) (n : Notes)
  : option (option EligibilityReason * Notes) :=
  match JSON_parse (rule_value req) with
  | None => None
  | Some langReq =>
  match member langReq (js "type") with
  | None => None
  | Some type =>
      let field k := match member langReq k with
                     | Some v => v
                     | None => None
                     end in
      if is_string type (js "english") then
        match english_score profile with
        | None =>
            Some (None,
                  push_missing
                    (js "English proficiency score / درجة اللغة الإنجليزية")
                    (js "english_score") n)
        | Some score =>
            match
              (if eqb (es_type score) (js "ielts") && truthy (field (js "ielts"))
               then ge_value (es_score score) (field (js "ielts"))
               else if eqb (es_type score) (js "toefl")
                       && truthy (field (js "toefl"))
               then ge_value (es_score score) (field (js "toefl"))
               else Some false)
            with
            | None => None
            | Some passed =>
                Some (Some
                  {| reason_rule_type := js "language_proficiency";
                     passed := passed;
                     reason_ar :=
                       if passed
                       then js "درجة اللغة الإنجليزية تستوفي المتطلبات"
                       else js "درجة اللغة الإنجليزية لا تستوفي الحد الأدنى المطلوب";
                     reason_en :=
                       if passed
                       then js "English score meets the requirements"
                       else js "English score does not meet the minimum requirement";
                     data_driven := true |}, n)
            end
        end
      else if is_string type (js "turkish") then
        match turkish_score profile with
        | None =>
            Some (None,
                  push_missing
                    (js "Turkish proficiency score / درجة اللغة التركية")
                    (js "turkish_score") n)
        | Some score =>
            let requiredLevel :=
              match field (js "tomer") with
              | Some v => if truthy (Some v) then v else JStr (js "B2")
              | None => JStr (js "B2")
              end in
            let requiredIndex :=
              match requiredLevel with
              | JStr s => indexOf levelOrder s
              | _ => -1
              end in
            let passed :=
              requiredIndex <=? indexOf levelOrder (ts_level score) in
            if passed then
              Some (Some
                {| reason_rule_type := js "language_proficiency";
                   passed := true;
                   reason_ar := js "مستوى اللغة التركية يستوفي المتطلبات";
                   reason_en := js "Turkish level meets the requirements";
                   data_driven := true |}, n)
            else
              match ToString requiredLevel with
              | None => None
              | Some shown =>
                  Some (Some
                    {| reason_rule_type := js "language_proficiency";
                       passed := false;
                       reason_ar :=
                         js "مستوى اللغة التركية لا يستوفي الحد الأدنى المطلوب ("
                         ++ shown ++ js ")";
                       reason_en :=
                         js "Turkish level does not meet the minimum requirement ("
                         ++ shown ++ js ")";
                       data_driven := true |}, n)
              end
        end
      else Some (None, n)
  end
  end.

Definition evaluateRequirement (req : RequirementOutput) (profile : Profile)
    (n : Notes) : option EligibilityReason * Notes :=
  if eqb (rule_type req) (js "gpa_minimum") then
    match gpa profile with
    | None => (None, push_missing (js "GPA / المعدل التراكمي") (js "gpa") n)
    | Some g =>
        let requiredGpa := parseFloat (rule_value req) in
        let passed := num_ge g requiredGpa in
        (Some
           {| reason_rule_type := js "gpa_minimum";
              passed := passed;
              reason_ar :=
                if passed
                then js "معدلك " ++ Number_toString g
                     ++ js " يستوفي الحد الأدنى " ++ Number_toString requiredGpa
                else js "معدلك " ++ Number_toString g
                     ++ js " أقل من الحد الأدنى المطلوب "
                     ++ Number_toString requiredGpa;
              reason_en :=
                if passed
                then js "Your GPA " ++ Number_toString g
                     ++ js " meets the minimum " ++ Number_toString requiredGpa
                else js "Your GPA " ++ Number_toString g
                     ++ js " is below the required minimum "
                     ++ Number_toString requiredGpa;
              data_driven := true |}, n)
    end
  else if eqb (rule_type req) (js "language_proficiency") then
    match language_proficiency_try req profile n with
    | Some result => result
    | None =>
        (None,
         push_assumption
           (js "Could not parse language requirement - defaulting to needs review")
           n)
    end
  else if eqb (rule_type req) (js "portfolio_required") then
    match has_portfolio profile with
    | None =>
        (None,
         push_missing (js "Portfolio status / حالة ملف الأعمال")
                      (js "has_portfolio") n)
    | Some declared =>
        let passed := Bool.eqb declared true in
        (Some
           {| reason_rule_type := js "portfolio_required";
              passed := passed;
              reason_ar :=
                if passed then js "لديك ملف أعمال"
                else js "يتطلب البرنامج تقديم ملف أعمال";
              reason_en :=
                if passed then js "You have a portfolio"
                else js "Program requires a portfolio submission";
              data_driven := true |}, n)
    end
  else if eqb (rule_type req) (js "work_experience") then
    match work_experience_years profile with
    | None =>
        (None,
         push_missing (js "Work experience / الخبرة العملية")
                      (js "work_experience_years") n)
    | Some _ => (None, n)
    end
  else
    (None,
     push_assumption (js "Unknown requirement type: " ++ rule_type req) n).

End WithRuntime.

(** [xs.length > 0]. *)
Definition nonempty {A : Type} (xs : list A) : bool :=
  match xs with
  | [] => false
  | _ :: _ => true
  end.

(** The predicate of the [majorFailures] filter. *)
Definition is_major_failure (r : EligibilityReason) : bool :=
  eqb (reason_rule_type r) (js "gpa_minimum")
  || includes (toLowerCase (reason_en r)) (js "education level")
  || includes (toLowerCase (reason_en r)) (js "bachelor degree")
  || includes (toLowerCase (reason_en r)) (js "master degree")
  || includes (toLowerCase (reason_en r)) (js "require a bachelor")
  || includes (toLowerCase (reason_en r)) (js "require a master").

Definition determineStatus (reasons : list EligibilityReason)
    (missingInfo : list jsstring) : EligibilityStatus :=
  let failedRequired :=
    filter (fun r => negb (passed r) && data_driven r) reasons in
  if nonempty failedRequired
     && nonempty (filter is_major_failure failedRequired)
  then unlikely
  else if nonempty missingInfo then needs_review
  else if forallb passed reasons then likely_eligible
  else needs_review.

Record BuildEligibilitySnapshotInput : Type := {
  ei_profile : Profile;
  ei_program_id : jsstring
}.

Section Snapshot.
Context {R : Runtime}.

(** One turn of the loop over [programDetail.requirements]. *)
Definition evaluate_step (profile : Profile)
    (acc : list EligibilityReason * Notes) (req : RequirementOutput)
  : list EligibilityReason * Notes :=
  match evaluateRequirement req profile (snd acc) with
  | (Some evaluation, n) => (fst acc ++ [evaluation], n)
  | (None, n) => (fst acc, n)
  end.

(** The reason pushed for the education-level prerequisite. *)
Definition education_reason (current desired : jsstring)
  : EligibilityReason :=
  let educationLevelOk := checkEducationLevel current desired in
  if negb (lc_passed educationLevelOk)
  then {| reason_rule_type := js "other";
          passed := false;
          reason_ar := lc_reason_ar educationLevelOk;
          reason_en := lc_reason_en educationLevelOk;
          data_driven := true |}
  else {| reason_rule_type := js "other";
          passed := true;
          reason_ar := js "المستوى التعليمي مناسب للبرنامج";
          reason_en := js "Education level is appropriate for the program";
          data_driven := true |}.

(** [buildEligibilitySnapshot(input, repository)], the repository being
    the catalog [db].  Nothing in the body throws, so the [catch] branch
    (ELIGIBILITY_ERROR) is reached only for a failure of the storage layer
    itself. *)
Definition buildEligibilitySnapshot (input : BuildEligibilitySnapshotInput)
    (db : Database) : ToolResponse EligibilitySnapshotOutput :=
  match getProgramDetail db (ei_program_id input) with
  | None =>
      Failure (js "PROGRAM_NOT_FOUND") (js "البرنامج غير موجود")
              (js "Program not found")
  | Some programDetail =>
      let profile := ei_profile input in
      let start :=
        ([education_reason (current_education_level profile)
                           (degree_level programDetail)], no_notes) in
      let (reasons, notes) :=
        fold_left (evaluate_step profile)
                  (requirements programDetail) start in
      Success
        {| status := determineStatus reasons (missingInfo notes);
           reasons := reasons;
           missing_info := missingInfo notes;
           missing_fields := missingFields notes;
           assumptions := noted_assumptions notes;
           disclaimer :=
             DISCLAIMER_AR ++ [10%N; 10%N] ++ DISCLAIMER_EN |}
  end.

End Snapshot.

(** What one rule contributes: its reason, if any, and what it appends to
    the three note arrays. *)
Definition reason_of {R : Runtime} (profile : Profile)
    (req : RequirementOutput) : option EligibilityReason :=
  fst (evaluateRequirement req profile no_notes).

Definition notes_of {R : Runtime} (profile : Profile)
    (req : RequirementOutput) : Notes :=
  snd (evaluateRequirement req profile no_notes).

Definition notes_app (a b : Notes) : Notes :=
  {| missingInfo := missingInfo a ++ missingInfo b;
     missingFields := missingFields a ++ missingFields b;
     noted_assumptions := noted_assumptions a ++ noted_assumptions b |}.

(** The reasons and the notes a list of rules contributes, in order. *)
Definition reasons_from {R : Runtime} (profile : Profile)
    (reqs : list RequirementOutput) : list EligibilityReason :=
  flat_map (fun req => match reason_of profile req with
                       | Some e => [e]
                       | None => []
                       end) reqs.

Definition notes_from {R : Runtime} (profile : Profile)
    (reqs : list RequirementOutput) : Notes :=
  fold_right (fun req acc => notes_app (notes_of profile req) acc)
             no_notes reqs.

(** A failed, data-driven reason that [determineStatus] counts as a major
    failure. *)
Definition hard_failure (r : EligibilityReason) : bool :=
  negb (passed r) && data_driven r && is_major_failure r.


End Eligibility.
Import Eligibility.

(** ** Document checklist ([build-document-checklist.ts]) *)
Module Checklist.

Inductive Priority : Type :=
  | priority_required
  | priority_recommended.

Definition is_required_priority (p : Priority) : bool :=
  match p with
  | priority_required => true
  | priority_recommended => false
  end.

Record ChecklistItemOutput : Type := {
  ci_doc_key : jsstring;
  ci_label_ar : jsstring;
  ci_label_en : jsstring;
  ci_applies_to : jsstring;
  ci_required : bool;
  ci_translation_required : bool;
  ci_notarization_required : bool;
  ci_apostille_notes : option jsstring;
  ci_why_needed_ar : jsstring;
  ci_why_needed_en : jsstring;
  ci_priority : Priority;
  ci_estimated_days : option Z
}.

Record DocumentChecklistOutput : Type := {
  items : list ChecklistItemOutput;
  unknowns : list jsstring;
  checklist_assumptions : list jsstring
}.

Record BuildDocumentChecklistInput : Type := {
  ci_profile : Profile;
  ci_program_id : jsstring
}.

(** The static tables of the tools are object literals indexed by a key.
    The model looks a key up among the literal's own members; the document
    keys of the catalog are taken not to collide with a member inherited
    from [Object.prototype]. *)
Fixpoint lookup {V : Type} (table : list (jsstring * V)) (k : jsstring)
  : option V :=
  match table with
  | [] => None
  | (k', v) :: rest => if eqb k' k then Some v else lookup rest k
  end.

Definition WHY_NEEDED : list (jsstring * (jsstring * jsstring)) :=
  [ (js "high_school_diploma",
     (js "مطلوبة لإثبات إكمال التعليم الثانوي",
      js "Required to prove completion of secondary education"));
    (js "high_school_transcript",
     (js "مطلوبة لتقييم أدائك الأكاديمي",
      js "Required to evaluate your academic performance"));
    (js "passport_copy",
     (js "مطلوبة للتحقق من الهوية وتقديم طلب التأشيرة",
      js "Required for identity verification and visa application"));
    (js "personal_photo",
     (js "مطلوبة لملف الطالب وبطاقة الجامعة",
      js "Required for student file and university ID card"));
    (js "english_proficiency",
     (js "مطلوبة لإثبات القدرة على الدراسة باللغة الإنجليزية",
      js "Required to demonstrate ability to study in English"));
    (js "turkish_proficiency",
     (js "مطلوبة لإثبات القدرة على الدراسة باللغة التركية",
      js "Required to demonstrate ability to study in Turkish"));
    (js "bachelor_diploma",
     (js "مطلوبة لإثبات الحصول على درجة البكالوريوس",
      js "Required to prove completion of bachelor degree"));
    (js "bachelor_transcript",
     (js "مطلوبة لتقييم أدائك الأكاديمي في البكالوريوس",
      js "Required to evaluate your undergraduate academic performance"));
    (js "cv_resume",
     (js "مطلوبة لعرض خبراتك ومهاراتك",
      js "Required to showcase your experience and skills"));
    (js "motivation_letter",
     (js "مطلوبة لشرح أسباب اختيارك للبرنامج",
      js "Required to explain your reasons for choosing the program"));
    (js "recommendation_letters",
     (js "مطلوبة لتقديم تقييم أكاديمي من أساتذتك",
      js "Required to provide academic evaluation from your professors"));
    (js "master_diploma",
     (js "مطلوبة لإثبات الحصول على درجة الماجستير",
      js "Required to prove completion of master degree"));
    (js "master_transcript",
     (js "مطلوبة لتقييم أدائك الأكاديمي في الماجستير",
      js "Required to evaluate your graduate academic performance"));
    (js "research_proposal",
     (js "مطلوبة لتوضيح مجال البحث الذي ترغب في دراسته",
      js "Required to outline your intended research area"));
    (js "portfolio",
     (js "مطلوبة لعرض أعمالك الفنية أو التصميمية",
      js "Required to showcase your artistic or design work"));
    (js "health_certificate",
     (js "مطلوبة للتأكد من اللياقة الصحية للبرنامج",
      js "Required to verify health fitness for the program")) ].

Definition getApostilleNotes (nationality : jsstring) : jsstring :=
  let hagueCountries :=
    [js "Saudi Arabia"; js "UAE"; js "Egypt"; js "Jordan"; js "Morocco";
     js "Tunisia"; js "Kuwait"; js "Qatar"; js "Bahrain"; js "Oman";
     js "Algeria"; js "Iraq"; js "Libya"; js "Syria"; js "Lebanon";
     js "Palestine"; js "Yemen"; js "Sudan"] in
  let lowerNationality := toLowerCase nationality in
  if existsb (fun c => includes lowerNationality (toLowerCase c))
             hagueCountries
  then js "قد تتطلب التصديق من السفارة التركية / May require attestation from Turkish Embassy"
  else js "يرجى التحقق من متطلبات التصديق الخاصة ببلدك / Please verify attestation requirements for your country".

(** One turn of the loop over [programDetail.documents]; the two
    [continue] statements leave the accumulator unchanged. *)
Definition checklist_step (profile : Profile)
    (acc : list ChecklistItemOutput * list jsstring) (doc : DocumentOutput)
  : list ChecklistItemOutput * list jsstring :=
  let whyNeeded :=
    match lookup WHY_NEEDED (doc_key doc) with
    | Some w => w
    | None => (js "مطلوبة وفقاً لمتطلبات البرنامج",
               js "Required according to program requirements")
    end in
  let appliesTo := js "جميع المتقدمين / All applicants" in
  if includes (doc_key doc) (js "bachelor")
     && eqb (current_education_level profile) (js "high_school")
  then acc
  else if includes (doc_key doc) (js "master")
          && negb (array_includes [js "master"; js "phd"]
                                  (current_education_level profile))
  then acc
  else
    let assumptions :=
      if translation_required doc && notarization_required doc
      then snd acc
           ++ [label_en doc
               ++ js " requires both translation and notarization based on default rules"]
      else snd acc in
    (fst acc
     ++ [{| ci_doc_key := doc_key doc;
            ci_label_ar := label_ar doc;
            ci_label_en := label_en doc;
            ci_applies_to := appliesTo;
            ci_required := required doc;
            ci_translation_required := translation_required doc;
            ci_notarization_required := notarization_required doc;
            ci_apostille_notes :=
              Some (getApostilleNotes (nationality profile));
            ci_why_needed_ar := fst whyNeeded;
            ci_why_needed_en := snd whyNeeded;
            ci_priority :=
              if required doc then priority_required
              else priority_recommended;
            ci_estimated_days := estimated_days doc |}],
     assumptions).

(** [a.estimated_days || 0]. *)
Definition days_or_zero (d : option Z) : Z := coalesce d 0.

(** The comparator of [items.sort], as "its result is [<= 0]". *)
Definition item_before (a b : ChecklistItemOutput) : bool :=
  if is_required_priority (ci_priority a)
     && negb (is_required_priority (ci_priority b))
  then true
  else if is_required_priority (ci_priority b)
          && negb (is_required_priority (ci_priority a))
  then false
  else days_or_zero (ci_estimated_days a)
       <=? days_or_zero (ci_estimated_days b).

Definition buildDocumentChecklist (input : BuildDocumentChecklistInput)
    (db : Database) : ToolResponse DocumentChecklistOutput :=
  match getProgramDetail db (ci_program_id input) with
  | None =>
      Failure (js "PROGRAM_NOT_FOUND") (js "البرنامج غير موجود")
              (js "Program not found")
  | Some programDetail =>
      let (collected, assumptions) :=
        fold_left (checklist_step (ci_profile input))
                  (documents programDetail) ([], []) in
      Success
        {| items := stable_sort item_before collected;
           unknowns :=
             match documents programDetail with
             | [] => [js "Document requirements not available for this program / متطلبات الوثائق غير متوفرة لهذا البرنامج"]
             | _ :: _ => []
             end;
           checklist_assumptions := assumptions |}
  end.

End Checklist.
Import Checklist.

(** ** Preparation timeline ([build-timeline.ts]) *)
Module Timeline.

Definition DEFAULT_TASK_DURATIONS : list (jsstring * Z) :=
  [ (js "high_school_diploma", 7); (js "high_school_transcript", 5);
    (js "passport_copy", 1); (js "personal_photo", 1);
    (js "english_proficiency", 14); (js "turkish_proficiency", 14);
    (js "bachelor_diploma", 7); (js "bachelor_transcript", 5);
    (js "cv_resume", 3); (js "motivation_letter", 5);
    (js "recommendation_letters", 14); (js "master_diploma", 7);
    (js "master_transcript", 5); (js "research_proposal", 21);
    (js "portfolio", 21); (js "health_certificate", 7);
    (js "translation", 5); (js "notarization", 3); (js "submission", 1) ].

(** [DEFAULT_TASK_DURATIONS.translation] and [.notarization]. *)
Definition fixed_duration (k : jsstring) : Z :=
  coalesce (lookup DEFAULT_TASK_DURATIONS k) 0.

(** A number of days used as a condition: [null] and [0] are falsy. *)
Definition truthy_days (d : option Z) : option Z :=
  match d with
  | Some v => if v =? 0 then None else Some v
  | None => None
  end.

(** The entries of the local [tasks] array.  Durations are whole days
    (an INTEGER column, integer defaults and buffers). *)
Record Task : Type := {
  t_doc_key : jsstring;
  t_label_ar : jsstring;
  t_label_en : jsstring;
  t_estimated_days : Z;
  t_required : bool
}.

Record TimelineTask : Type := {
  tt_doc_key : jsstring;
  task_ar : jsstring;
  task_en : jsstring;
  is_critical_path : bool;
  tt_estimated_days : Z
}.

(** A week of the plan.  Dates are day numbers counted from the clock
    reading [today]; their rendering as ISO text is not modelled. *)
Record TimelineWeek : Type := {
  week_number : Z;
  start_date : Z;
  end_date : Z;
  week_tasks : list TimelineTask
}.

Record TimelineOutput : Type := {
  weeks : list TimelineWeek;
  critical_path_items : list jsstring;
  target_intake : jsstring;
  timeline_assumptions : list jsstring
}.

Record BuildTimelineInput : Type := {
  ti_profile : Profile;
  ti_program_id : jsstring;
  ti_intake_target : option jsstring
}.

(** The body of the loop that fills [tasks]:
    [item.estimated_days || DEFAULT_TASK_DURATIONS[item.doc_key] || 7],
    plus the translation and notarization buffers. *)
Definition task_of_item (item : ChecklistItemOutput) : Task :=
  let base :=
    match truthy_days (ci_estimated_days item) with
    | Some d => d
    | None =>
        match truthy_days (lookup DEFAULT_TASK_DURATIONS (ci_doc_key item)) with
        | Some d => d
        | None => 7
        end
    end in
  let withTranslation :=
    if ci_translation_required item
    then base + fixed_duration (js "translation") else base in
  let totalDays :=
    if ci_notarization_required item
    then withTranslation + fixed_duration (js "notarization")
    else withTranslation in
  {| t_doc_key := ci_doc_key item;
     t_label_ar := ci_label_ar item;
     t_label_en := ci_label_en item;
     t_estimated_days := totalDays;
     t_required := is_required_priority (ci_priority item) |}.

(** The comparator [(a, b) => b.estimated_days - a.estimated_days], as
    "its result is [<= 0]". *)
Definition task_before (a b : Task) : bool :=
  t_estimated_days b <=? t_estimated_days a.

(** [task.estimated_days >= maxDuration * 0.7].  For whole days of
    ordinary magnitude and a [maxDuration] that is not negative, the
    double-precision product decides the comparison exactly as the
    rational one does (the double nearest to 0.7 lies just below it, and
    two sides that differ do so by a tenth of a day at least); for a
    negative [maxDuration] the two can differ only where the duration
    equals the threshold. *)
Definition on_critical_path (maxDuration : Z) (task : Task) : bool :=
  Qle_bool (inject_Z maxDuration * (7 # 10))
           (inject_Z (t_estimated_days task)).

Definition max_duration (tasks : list Task) : Z :=
  match tasks with
  | first :: _ => t_estimated_days first
  | [] => 0
  end.

Definition critical_path (tasks : list Task) : list jsstring :=
  map t_doc_key (filter (on_critical_path (max_duration tasks)) tasks).

Definition start_task (critical : bool) (task : Task) : TimelineTask :=
  {| tt_doc_key := t_doc_key task;
     task_ar := js "ابدأ بالحصول على " ++ t_label_ar task;
     task_en := js "Start obtaining " ++ t_label_en task;
     is_critical_path := critical;
     tt_estimated_days := t_estimated_days task |}.

Definition follow_up_task (task : Task) : TimelineTask :=
  {| tt_doc_key := t_doc_key task;
     task_ar := js "متابعة " ++ t_label_ar task;
     task_en := js "Follow up on " ++ t_label_en task;
     is_critical_path := true;
     tt_estimated_days := t_estimated_days task |}.

Definition complete_task (task : Task) : TimelineTask :=
  {| tt_doc_key := t_doc_key task;
     task_ar := js "إكمال " ++ t_label_ar task;
     task_en := js "Complete " ++ t_label_en task;
     is_critical_path := false;
     tt_estimated_days := t_estimated_days task |}.

Definition translation_notarization_task : TimelineTask :=
  {| tt_doc_key := js "translation_notarization";
     task_ar := js "إرسال الوثائق للترجمة والتوثيق";
     task_en := js "Submit documents for translation and notarization";
     is_critical_path := true;
     tt_estimated_days := 8 |}.

Definition final_review_task : TimelineTask :=
  {| tt_doc_key := js "final_review";
     task_ar := js "مراجعة نهائية لجميع الوثائق";
     task_en := js "Final review of all documents";
     is_critical_path := false;
     tt_estimated_days := 2 |}.

Definition submission_task : TimelineTask :=
  {| tt_doc_key := js "submission";
     task_ar := js "تقديم طلب الالتحاق";
     task_en := js "Submit application";
     is_critical_path := true;
     tt_estimated_days := 1 |}.

(** The tasks of week [weekNum] (the body of the [for] loop). *)
Definition tasks_of_week (criticalTasks requiredTasks : list Task)
    (totalWeeks weekNum : Z) : list TimelineTask :=
  if weekNum <=? 2 then
    map (start_task true) (firstn 2 criticalTasks)
  else if weekNum <=? 4 then
    let remainingCritical := skipn 2 criticalTasks in
    map follow_up_task (firstn 1 remainingCritical)
    ++ map (start_task false) (firstn 2 requiredTasks)
  else if weekNum <=? 6 then
    map complete_task (skipn 2 requiredTasks)
    ++ [translation_notarization_task]
  else
    [final_review_task]
    ++ (if weekNum =? totalWeeks then [submission_task] else []).

Definition generateWeeklySchedule (today : Z) (tasks : list Task)
    (totalWeeks : Z) (criticalPathItems : list jsstring)
  : list TimelineWeek :=
  let criticalTasks :=
    filter (fun t => array_includes criticalPathItems (t_doc_key t)
                     && t_required t) tasks in
  let requiredTasks :=
    filter (fun t => negb (array_includes criticalPathItems (t_doc_key t))
                     && t_required t) tasks in
  map (fun i =>
         let weekNum := Z.of_nat i in
         let startDate := today + (weekNum - 1) * 7 in
         {| week_number := weekNum;
            start_date := startDate;
            end_date := startDate + 6;
            week_tasks :=
              tasks_of_week criticalTasks requiredTasks totalWeeks weekNum |})
      (seq 1 (Z.to_nat totalWeeks)).

(** The predicate given to [programDetail.intakes.find]. *)
Definition intake_matches (intake_target i : jsstring) : bool :=
  includes (toLowerCase i) (toLowerCase intake_target)
  || includes (toLowerCase intake_target) (toLowerCase i).

(** A string used as a condition: [undefined] and the empty string are
    falsy. *)
Definition truthy_string (s : option jsstring) : option jsstring :=
  match s with
  | Some [] | None => None
  | Some t => Some t
  end.

(** The intake resolution: the target label, whether the intake date is
    known, and the assumptions pushed on the way. *)
Definition resolve_intake (intake_target : option jsstring)
    (intakes : list jsstring) : jsstring * bool * list jsstring :=
  let targetIntake := coalesce (truthy_string intake_target) (js "September") in
  match intakes with
  | first :: _ =>
      match truthy_string intake_target with
      | Some target =>
          match truthy_string (find (intake_matches target) intakes) with
          | Some matchingIntake => (matchingIntake, true, [])
          | None => (targetIntake, false, [])
          end
      | None => (first, true, [])
      end
  | [] =>
      (targetIntake, false,
       [js "Intake dates not available - using generic 8-week timeline"])
  end.


(** [buildTimeline(input, repository)]; [today] is the clock reading of
    [generateWeeklySchedule]. *)
Definition buildTimeline (today : Z) (input : BuildTimelineInput)
    (db : Database) : ToolResponse TimelineOutput :=
  match buildDocumentChecklist
          {| ci_profile := ti_profile input;
             ci_program_id := ti_program_id input |} db with
  | Failure _ _ _ =>
      Failure (js "CHECKLIST_ERROR")
              (js "لم نتمكن من تحديد المستندات المطلوبة")
              (js "Could not determine required documents")
  | Success checklist =>
      match getProgramDetail db (ti_program_id input) with
      | None =>
          Failure (js "PROGRAM_NOT_FOUND") (js "البرنامج غير موجود")
                  (js "Program not found")
      | Some programDetail =>
          let tasks :=
            stable_sort task_before (map task_of_item (items checklist)) in
          let criticalPathItems := critical_path tasks in
          let '(targetIntake, intakeDateKnown, noted) :=
            resolve_intake (ti_intake_target input) (intakes programDetail) in
          let weeks :=
            generateWeeklySchedule today tasks
              (if intakeDateKnown then 8 else 8) criticalPathItems in
          let assumptions :=
            noted
            ++ (if negb intakeDateKnown
                then [js "Timeline is based on an 8-week preparation period"]
                else [])
            ++ (if existsb (fun t => t_estimated_days t =? 0) tasks
                then [js "Some task durations are estimated based on typical processing times"]
                else []) in
          Success
            {| weeks := weeks;
               critical_path_items := criticalPathItems;
               target_intake := targetIntake;
               timeline_assumptions := assumptions |}
      end
  end.

(** The checklist items and the sorted [tasks] array that a call computes
    for a found program. *)
Definition checklist_items (profile : Profile)
    (programDetail : ProgramDetailOutput) : list ChecklistItemOutput :=
  stable_sort item_before
    (fst (fold_left (checklist_step profile)
                    (documents programDetail) ([], []))).

Definition timeline_tasks (profile : Profile)
    (programDetail : ProgramDetailOutput) : list Task :=
  stable_sort task_before
    (map task_of_item (checklist_items profile programDetail)).


Definition EIGHT_WEEK_PERIOD : jsstring :=
  js "Timeline is based on an 8-week preparation period".

End Timeline.
Import Timeline.

(** ** Keyword expansion ([search-programs.ts]) *)
Module Search.

Definition KEYWORD_SYNONYMS : list (jsstring * list jsstring) :=
  [ (js "computer engineering",
     [js "ce"; js "ceng"; js "comp eng"; js "bilgisayar mühendisliği";
      js "هندسة الحاسوب"; js "هندسة حاسوب"]);
    (js "ce",
     [js "computer engineering"; js "ceng"; js "comp eng";
      js "bilgisayar mühendisliği"; js "هندسة الحاسوب"]);
    (js "ceng",
     [js "computer engineering"; js "ce"; js "comp eng";
      js "bilgisayar mühendisliği"; js "هندسة الحاسوب"]);
    (js "computer science",
     [js "cs"; js "comp sci"; js "bilgisayar bilimleri"; js "علوم الحاسوب";
      js "علوم حاسوب"]);
    (js "cs",
     [js "computer science"; js "comp sci"; js "bilgisayar bilimleri";
      js "علوم الحاسوب"]);
    (js "software engineering",
     [js "se"; js "soft eng"; js "yazılım mühendisliği";
      js "هندسة البرمجيات"]);
    (js "se",
     [js "software engineering"; js "soft eng"; js "yazılım mühendisliği";
      js "هندسة البرمجيات"]);
    (js "electrical engineering",
     [js "ee"; js "elec eng"; js "elektrik mühendisliği";
      js "الهندسة الكهربائية"; js "هندسة كهربائية"]);
    (js "ee",
     [js "electrical engineering"; js "elec eng"; js "elektrik mühendisliği";
      js "الهندسة الكهربائية"]);
    (js "electronics",
     [js "electronic engineering"; js "elektronik"; js "إلكترونيات"]);
    (js "business administration",
     [js "ba"; js "business"; js "işletme"; js "إدارة الأعمال";
      js "ادارة اعمال"]);
    (js "mba",
     [js "master of business administration"; js "business administration";
      js "ماجستير إدارة الأعمال"]);
    (js "medicine", [js "md"; js "tıp"; js "الطب"; js "طب"]);
    (js "medical", [js "medicine"; js "tıp"; js "طب"]);
    (js "architecture",
     [js "arch"; js "mimarlık"; js "الهندسة المعمارية"; js "عمارة"]);
    (js "law", [js "llb"; js "hukuk"; js "القانون"; js "قانون"]);
    (js "psychology", [js "psych"; js "psikoloji"; js "علم النفس"]);
    (js "nursing", [js "hemşirelik"; js "التمريض"; js "تمريض"]);
    (js "engineering", [js "eng"; js "mühendislik"; js "هندسة"]) ].

(** The class of word characters, white space and U+0600..U+06FF, whose
    complement the regular expression of [normalizeKeyword] deletes. *)
Definition is_word_char (u : code_unit) : bool :=
  (((48 <=? u) && (u <=? 57)) || ((65 <=? u) && (u <=? 90)) || (u =? 95)
   || ((97 <=? u) && (u <=? 122)))%N.

Definition is_retained (u : code_unit) : bool :=
  is_word_char u || is_white_space u || ((1536 <=? u) && (u <=? 1791))%N.

Definition normalizeKeyword (keyword : jsstring) : jsstring :=
  trim (filter is_retained (toLowerCase keyword)).

(** The names every object literal inherits from [Object.prototype]. *)
Definition inherited_members : list jsstring :=
  [js "constructor"; js "__defineGetter__"; js "__defineSetter__";
   js "hasOwnProperty"; js "__lookupGetter__"; js "__lookupSetter__";
   js "isPrototypeOf"; js "propertyIsEnumerable"; js "toString";
   js "valueOf"; js "__proto__"; js "toLocaleString"].

(** [KEYWORD_SYNONYMS[k]]: an own member, an inherited one (a function or
    the prototype object: truthy, and without a [slice] method) or
    [undefined]. *)
Inductive Indexed (V : Type) : Type :=
  | Own (v : V)
  | Inherited
  | Undefined.
Arguments Own {V} v.
Arguments Inherited {V}.
Arguments Undefined {V}.

Definition index {V : Type} (table : list (jsstring * V)) (k : jsstring)
  : Indexed V :=
  match lookup table k with
  | Some v => Own v
  | None => if array_includes inherited_members k then Inherited else Undefined
  end.

(** [set.add(x)] on a [Set], kept in insertion order. *)
Definition set_add (x : jsstring) (set : list jsstring) : list jsstring :=
  if array_includes set x then set else set ++ [x].

Definition set_add_all (xs : list jsstring) (set : list jsstring)
  : list jsstring :=
  fold_left (fun acc x => set_add x acc) xs set.

Record Expansion : Type := {
  expanded : list jsstring;
  synonymsApplied : list jsstring
}.

(** The text pushed to [synonymsApplied]. *)
Definition synonym_note (keyword : jsstring) (synonyms : list jsstring)
  : jsstring :=
  [34%N] ++ keyword ++ [34%N] ++ js " → ["
  ++ join (js ", ") (firstn 3 synonyms)
  ++ (if (3 <? List.length synonyms)%nat then js "..." else [])
  ++ js "]".

(** The inner loop over [Object.entries(KEYWORD_SYNONYMS)]. *)
Definition add_containing_groups (normalized : jsstring)
    (set : list jsstring) : list jsstring :=
  fold_left
    (fun acc entry =>
       let '(mainTerm, syns) := entry in
       if existsb (fun s => eqb (normalizeKeyword s) normalized) syns
       then set_add_all (map normalizeKeyword syns)
                        (set_add (normalizeKeyword mainTerm) acc)
       else acc)
    KEYWORD_SYNONYMS set.

(** One turn of the loop over [keywords]; [None] is the TypeError of
    calling [slice] on an inherited member. *)
Definition expand_keyword (acc : Expansion) (keyword : jsstring)
  : option Expansion :=
  let normalized := normalizeKeyword keyword in
  let withKeyword := set_add normalized (expanded acc) in
  match index KEYWORD_SYNONYMS normalized with
  | Inherited => None
  | Own synonyms =>
      Some {| expanded :=
                add_containing_groups normalized
                  (set_add_all (map normalizeKeyword synonyms) withKeyword);
              synonymsApplied :=
                synonymsApplied acc ++ [synonym_note keyword synonyms] |}
  | Undefined =>
      Some {| expanded := add_containing_groups normalized withKeyword;
              synonymsApplied := synonymsApplied acc |}
  end.

Fixpoint expand_from (acc : Expansion) (keywords : list jsstring)
  : option Expansion :=
  match keywords with
  | [] => Some acc
  | keyword :: rest =>
      match expand_keyword acc keyword with
      | Some acc' => expand_from acc' rest
      | None => None
      end
  end.

Definition expandKeywords (keywords : list jsstring) : option Expansion :=
  expand_from {| expanded := []; synonymsApplied := [] |} keywords.

End Search.
Import Search.

(** ** The wording of the specification, for comparison with the code *)
Module SpecWording.

(** A synonym group: a main term of the table with its synonyms, as they
    enter an expansion. *)
Definition synonym_group (entry : jsstring * list jsstring)
  : list jsstring :=
  normalizeKeyword (fst entry) :: map normalizeKeyword (snd entry).

Definition same_group (a b : jsstring) : Prop :=
  exists entry, In entry KEYWORD_SYNONYMS
                /\ In a (synonym_group entry) /\ In b (synonym_group entry).

(** The transitive synonym closure. *)
Definition synonym_closure : jsstring -> jsstring -> Prop :=
  clos_refl_trans jsstring same_group.

(** A rule scoped to the program, and a rule scoped to its institution. *)
Definition program_scoped (programId : jsstring) (r : RequirementRow)
  : bool :=
  match r_program_id r with
  | Some q => eqb q programId
  | None => false
  end.

Definition institution_scoped (db : Database) (programId : jsstring)
    (r : RequirementRow) : bool :=
  match r_program_id r, university_of_program db programId with
  | None, Some u => eqb (r_university_id r) u
  | _, _ => false
  end.

(** The two-tier lookup: the program-scoped rules, then the
    institution-scoped rules of the kinds no program-scoped rule covers. *)
Definition two_tier_requirements (db : Database) (programId : jsstring)
  : list RequirementRow :=
  let programRules := filter (program_scoped programId) (requirements_table db) in
  programRules
  ++ filter (fun r =>
               institution_scoped db programId r
               && negb (existsb (fun p => eqb (r_rule_type p) (r_rule_type r))
                                programRules))
            (requirements_table db).

End SpecWording.
Import SpecWording.

(** ** A reference runtime

    An implementation of the built-ins, used to run the model on concrete
    inputs: decimal literals are read exactly, JSON texts by the grammar of
    ECMA-404 ([\uXXXX] escapes give one code unit each). *)
Module Reference.

Definition is_digit (u : code_unit) : bool := ((48 <=? u) && (u <=? 57))%N.

(** Reads a run of decimal digits: the value accumulated on [acc], the
    number of digits read and the rest of the input. *)
Fixpoint read_digits (s : jsstring) (acc : Z) (count : nat)
  : Z * nat * jsstring :=
  match s with
  | u :: r =>
      if is_digit u
      then read_digits r (acc * 10 + (Z.of_N u - 48)) (S count)
      else (acc, count, s)
  | [] => (acc, count, [])
  end.

(** [mantissa * 10 ^ exponent]. *)
Definition scaled (mantissa exponent : Z) : number :=
  if 0 <=? exponent
  then Fin (inject_Z (mantissa * 10 ^ exponent))
  else Fin (Qmake mantissa (Z.to_pos (10 ^ (- exponent)))).

Definition negate (n : number) : number :=
  match n with
  | NaN => NaN
  | NegInf => PosInf
  | PosInf => NegInf
  | Fin q => Fin (Qopp q)
  end.

(** An optional exponent part: its value and the rest, or no exponent. *)
Definition read_exponent (s : jsstring) : Z * jsstring :=
  match s with
  | e :: r =>
      if ((e =? 101) || (e =? 69))%N then
        let '(negative, r1) :=
          match r with
          | sign :: r' =>
              if (sign =? 45)%N then (true, r')
              else if (sign =? 43)%N then (false, r') else (false, r)
          | [] => (false, r)
          end in
        let '(v, count, r2) := read_digits r1 0 0 in
        match count with
        | O => (0, s)
        | S _ => (if negative then - v else v, r2)
        end
      else (0, s)
  | [] => (0, s)
  end.

(** The longest prefix that is an unsigned StrDecimalLiteral. *)
Definition read_decimal (s : jsstring) : option (number * jsstring) :=
  if startsWith s (js "Infinity") then Some (PosInf, skipn 8 s)
  else
    let '(i, ni, r1) := read_digits s 0 0 in
    let fraction :=
      match r1 with
      | dot :: r =>
          if (dot =? 46)%N then
            let '(m, nf, r2) := read_digits r i 0 in
            match ni, nf with
            | O, O => None
            | _, _ => Some (m, nf, r2)
            end
          else match ni with O => None | S _ => Some (i, O, r1) end
      | [] => match ni with O => None | S _ => Some (i, O, r1) end
      end in
    match fraction with
    | None => None
    | Some (m, nf, r2) =>
        let '(e, r3) := read_exponent r2 in
        Some (scaled m (e - Z.of_nat nf), r3)
    end.

Definition read_signed_decimal (s : jsstring) : option (number * jsstring) :=
  match s with
  | sign :: r =>
      if (sign =? 45)%N then
        option_map (fun p => (negate (fst p), snd p)) (read_decimal r)
      else if (sign =? 43)%N then read_decimal r
      else read_decimal s
  | [] => None
  end.

Definition parseFloat_ref (s : jsstring) : number :=
  match read_signed_decimal (trimStart s) with
  | Some (n, _) => n
  | None => NaN
  end.

(** Digits of a literal in radix 2, 8 or 16. *)
Definition radix_digit (radix : Z) (u : code_unit) : option Z :=
  let v :=
    if is_digit u then Z.of_N u - 48
    else if ((97 <=? u) && (u <=? 102))%N then Z.of_N u - 87
    else if ((65 <=? u) && (u <=? 70))%N then Z.of_N u - 55
    else radix in
  if v <? radix then Some v else None.

Fixpoint read_radix (radix : Z) (s : jsstring) (acc : Z) : option Z :=
  match s with
  | [] => Some acc
  | u :: r =>
      match radix_digit radix u with
      | Some v => read_radix radix r (acc * radix + v)
      | None => None
      end
  end.

Definition StringToNumber_ref (s : jsstring) : number :=
  match trim s with
  | [] => num_of_Z 0
  | zero :: x :: d :: r =>
      let radix :=
        if (zero =? 48)%N then
          if ((x =? 120) || (x =? 88))%N then Some 16
          else if ((x =? 111) || (x =? 79))%N then Some 8
          else if ((x =? 98) || (x =? 66))%N then Some 2
          else None
        else None in
      match radix with
      | Some b =>
          match read_radix b (d :: r) 0 with
          | Some v => num_of_Z v
          | None => NaN
          end
      | None =>
          match read_signed_decimal (zero :: x :: d :: r) with
          | Some (n, []) => n
          | _ => NaN
          end
      end
  | t =>
      match read_signed_decimal t with
      | Some (n, []) => n
      | _ => NaN
      end
  end.

(** Decimal digits of a non-negative integer. *)
Fixpoint digits_of (fuel : nat) (n : Z) (acc : jsstring) : jsstring :=
  match fuel with
  | O => acc
  | S fuel' =>
      let acc' := Z.to_N (48 + n mod 10) :: acc in
      if n <? 10 then acc' else digits_of fuel' (n / 10) acc'
  end.

Definition show_Z (n : Z) : jsstring :=
  digits_of (S (Z.to_nat (Z.log2 n))) n [].

(** Digits of the fraction [num / den] (below one), at most [fuel] of
    them. *)
Fixpoint fraction_digits (fuel : nat) (num den : Z) : jsstring :=
  match fuel with
  | O => []
  | S fuel' =>
      if num =? 0 then []
      else Z.to_N (48 + (num * 10) / den)
           :: fraction_digits fuel' ((num * 10) mod den) den
  end.

(** [Number.prototype.toString]: exact for integers and for short
    terminating decimals of ordinary magnitude. *)
Definition Number_toString_ref (n : number) : jsstring :=
  match n with
  | NaN => js "NaN"
  | PosInf => js "Infinity"
  | NegInf => js "-Infinity"
  | Fin q =>
      let a := Z.abs (Qnum q) in
      let d := Z.pos (Qden q) in
      (if Qnum q <? 0 then js "-" else [])
      ++ show_Z (a / d)
      ++ (if a mod d =? 0 then []
          else js "." ++ fraction_digits 17 (a mod d) d)
  end.

(** White space of the JSON grammar. *)
Fixpoint skip_ws (s : jsstring) : jsstring :=
  match s with
  | u :: r =>
      if ((u =? 32) || (u =? 9) || (u =? 10) || (u =? 13))%N
      then skip_ws r else s
  | [] => []
  end.

(** The characters of a JSON string after its opening quote: the decoded
    string and the input after the closing quote. *)
Fixpoint read_string (s : jsstring) (acc : jsstring)
  : option (jsstring * jsstring) :=
  match s with
  | [] => None
  | u :: r =>
      if (u =? 34)%N then Some (acc, r)
      else if (u <? 32)%N then None
      else if (u =? 92)%N then
        match r with
        | e :: r1 =>
            if (e =? 117)%N then
              match r1 with
              | a :: b :: c :: d :: r2 =>
                  match read_radix 16 [a; b; c; d] 0 with
                  | Some v => read_string r2 (acc ++ [Z.to_N v])
                  | None => None
                  end
              | _ => None
              end
            else
              let plain :=
                if ((e =? 34) || (e =? 92) || (e =? 47))%N then Some e
                else if (e =? 98)%N then Some 8%N
                else if (e =? 102)%N then Some 12%N
                else if (e =? 110)%N then Some 10%N
                else if (e =? 114)%N then Some 13%N
                else if (e =? 116)%N then Some 9%N
                else None in
              match plain with
              | Some c => read_string r1 (acc ++ [c])
              | None => None
              end
        | [] => None
        end
      else read_string r (acc ++ [u])
  end.

(** A JSON number: no leading zeros, digits on both sides of the point
    and in the exponent. *)
Definition read_json_number (s : jsstring) : option (number * jsstring) :=
  let '(negative, r0) :=
    match s with
    | sign :: r => if (sign =? 45)%N then (true, r) else (false, s)
    | [] => (false, s)
    end in
  let '(i, ni, r1) := read_digits r0 0 0 in
  let leading_zero :=
    match r0 with
    | z :: _ => (z =? 48)%N && (1 <? ni)%nat
    | [] => false
    end in
  match ni with
  | O => None
  | S _ =>
      if leading_zero then None
      else
        let fraction :=
          match r1 with
          | dot :: r =>
              if (dot =? 46)%N then
                let '(m, nf, r2) := read_digits r i 0 in
                match nf with O => None | S _ => Some (m, nf, r2) end
              else Some (i, O, r1)
          | [] => Some (i, O, r1)
          end in
        match fraction with
        | None => None
        | Some (m, nf, r2) =>
            let exponent :=
              match r2 with
              | e :: r =>
                  if ((e =? 101) || (e =? 69))%N then
                    match read_exponent r2 with
                    | (v, r3) =>
                        if (List.length r3 <? List.length r2)%nat
                        then Some (v, r3) else None
                    end
                  else Some (0, r2)
              | [] => Some (0, r2)
              end in
            match exponent with
            | None => None
            | Some (e, r3) =>
                let n := scaled m (e - Z.of_nat nf) in
                Some (if negative then negate n else n, r3)
            end
        end
  end.

(** A JSON value and the input after it. *)
Fixpoint read_value (fuel : nat) (s : jsstring) {struct fuel}
  : option (json * jsstring) :=
  match fuel with
  | O => None
  | S f =>
      let t := skip_ws s in
      if startsWith t (js "null") then Some (JNull, skipn 4 t)
      else if startsWith t (js "true") then Some (JBool true, skipn 4 t)
      else if startsWith t (js "false") then Some (JBool false, skipn 5 t)
      else
        match t with
        | [] => None
        | u :: r =>
            if (u =? 34)%N then
              option_map (fun p => (JStr (fst p), snd p)) (read_string r [])
            else if (u =? 91)%N then
              match skip_ws r with
              | close :: r' =>
                  if (close =? 93)%N then Some (JArr [], r')
                  else
                    (fix elements (g : nat) (s : jsstring) (acc : list json)
                       {struct g} : option (json * jsstring) :=
                       match g with
                       | O => None
                       | S g' =>
                           match read_value f s with
                           | Some (v, r1) =>
                               match skip_ws r1 with
                               | c :: r2 =>
                                   if (c =? 44)%N
                                   then elements g' r2 (acc ++ [v])
                                   else if (c =? 93)%N
                                   then Some (JArr (acc ++ [v]), r2)
                                   else None
                               | [] => None
                               end
                           | None => None
                           end
                       end) f r []
              | [] => None
              end
            else if (u =? 123)%N then
              match skip_ws r with
              | close :: r' =>
                  if (close =? 125)%N then Some (JObj [], r')
                  else
                    (fix members (g : nat) (s : jsstring)
                       (acc : list (jsstring * json)) {struct g}
                       : option (json * jsstring) :=
                       match g with
                       | O => None
                       | S g' =>
                           match skip_ws s with
                           | q :: s1 =>
                               if (q =? 34)%N then
                                 match read_string s1 [] with
                                 | Some (k, s2) =>
                                     match skip_ws s2 with
                                     | colon :: s3 =>
                                         if (colon =? 58)%N then
                                           match read_value f s3 with
                                           | Some (v, r1) =>
                                               match skip_ws r1 with
                                               | c :: r2 =>
                                                   if (c =? 44)%N
                                                   then members g' r2
                                                          (acc ++ [(k, v)])
                                                   else if (c =? 125)%N
                                                   then Some
                                                          (JObj (acc ++ [(k, v)]),
                                                           r2)
                                                   else None
                                               | [] => None
                                               end
                                           | None => None
                                           end
                                         else None
                                     | [] => None
                                     end
                                 | None => None
                                 end
                               else None
                           | [] => None
                           end
                       end) f r []
              | [] => None
              end
            else
              option_map (fun p => (JNum (fst p), snd p)) (read_json_number t)
        end
  end.

Definition JSON_parse_ref (text : jsstring) : option json :=
  match read_value (S (List.length text)) text with
  | Some (v, rest) =>
      match skip_ws rest with
      | [] => Some v
      | _ :: _ => None
      end
  | None => None
  end.

Definition reference_runtime : Runtime :=
  {| parseFloat := parseFloat_ref;
     StringToNumber := StringToNumber_ref;
     Number_toString := Number_toString_ref;
     JSON_parse := JSON_parse_ref |}.

End Reference.

(** ** Fixtures: the catalog of the unit tests and further sample rows *)
Module Fixtures.

(** A JSON text written with apostrophes for its double quotes. *)
Definition quoted (s : string) : jsstring :=
  map (fun u => if (u =? 39)%N then 34%N else u) (js s).

Definition test_university : UniversityRow :=
  {| u_id := js "test-uni";
     u_name_ar := js "جامعة اختبارية";
     u_name_en := js "Test University";
     u_city := js "Istanbul";
     u_website := Some (js "https://test.edu") |}.

Definition program (id name degree : string) (intakes : list jsstring)
  : ProgramRow :=
  {| p_id := js id;
     p_university_id := js "test-uni";
     p_program_name_ar := js "علوم الحاسوب";
     p_program_name_en := js name;
     p_degree_level := js degree;
     p_language := js "en";
     p_city := js "Istanbul";
     p_tuition_min := 5000;
     p_tuition_max := 6000;
     p_currency := js "USD";
     p_intakes := intakes;
     p_active_flag := 1 |}.

Definition rule (id : string) (program_id : option jsstring)
    (kind : string) (value : jsstring) : RequirementRow :=
  {| r_id := js id;
     r_program_id := program_id;
     r_university_id := js "test-uni";
     r_applicant_category := js "international";
     r_rule_type := js kind;
     r_rule_value := value;
     r_human_text_ar := js "شرط";
     r_human_text_en := js "Requirement";
     r_required_flag := 1 |}.

Definition template (key label : string) (translation notarization : Z)
    (days : option Z) : DocumentTemplateRow :=
  {| dt_doc_key := js key;
     dt_label_ar := js "وثيقة";
     dt_label_en := js label;
     dt_translation_required_default := translation;
     dt_notarization_required_default := notarization;
     dt_notes_ar := None;
     dt_notes_en := None;
     dt_estimated_days_to_obtain := days |}.

Definition document_rule (program_id key : string)
    (required translation notarization : option Z)
  : ProgramDocumentRuleRow :=
  {| pdr_program_id := js program_id;
     pdr_doc_key := js key;
     pdr_required_flag := required;
     pdr_translation_required := translation;
     pdr_notarization_required := notarization;
     pdr_notes_ar := None;
     pdr_notes_en := None |}.

(** The rows seeded by the unit tests of the eligibility and timeline
    tools, with three programs added: one without rules, one whose grade
    rule is not a number and whose language rule is not JSON, one with a
    document of negative duration. *)
Definition test_db : Database :=
  {| universities := [test_university];
     programs :=
       [ program "prog-bachelor" "Computer Science" "bachelor"
                 [js "September"; js "February"];
         program "prog-master" "Computer Science MS" "master"
                 [js "September"];
         program "prog-open" "Open Studies" "bachelor" [];
         program "prog-draft" "Draft Rules" "bachelor" [js "September"];
         program "prog-odd" "Odd Durations" "bachelor" [js "September"] ];
     requirements_table :=
       [ rule "req-1" (Some (js "prog-bachelor")) "gpa_minimum" (js "60");
         rule "req-2" (Some (js "prog-bachelor")) "language_proficiency"
              (quoted "{'type':'english','ielts':5.5,'toefl':70}");
         rule "req-3" (Some (js "prog-master")) "gpa_minimum" (js "2.5");
         rule "req-4" (Some (js "prog-draft")) "gpa_minimum" (js "N/A");
         rule "req-5" (Some (js "prog-draft")) "language_proficiency"
              (js "IELTS 6.0 or above") ];
     document_templates :=
       [ template "high_school_diploma" "High School Diploma" 1 1 (Some 7);
         template "high_school_transcript" "High School Transcript" 1 1
                  (Some 5);
         template "passport_copy" "Passport Copy" 0 0 (Some 1);
         template "english_proficiency" "English Proficiency Certificate"
                  0 0 (Some 14);
         template "late_fee_waiver" "Late Fee Waiver" 0 0 (Some (-10)) ];
     program_document_rules :=
       [ document_rule "prog-bachelor" "high_school_diploma" (Some 1) None None;
         document_rule "prog-bachelor" "high_school_transcript" (Some 1)
                       None None;
         document_rule "prog-bachelor" "passport_copy" (Some 1) None None;
         document_rule "prog-bachelor" "english_proficiency" (Some 1)
                       None None;
         document_rule "prog-master" "passport_copy" None (Some 1) (Some 0);
         document_rule "prog-odd" "late_fee_waiver" (Some 1) None None ] |}.

(** The same university with a grade rule of its own next to the rule of
    the bachelor program. *)
Definition institution_rule : RequirementRow :=
  rule "req-uni" None "gpa_minimum" (js "80").

Definition layered_db : Database :=
  {| universities := universities test_db;
     programs := programs test_db;
     requirements_table := requirements_table test_db ++ [institution_rule];
     document_templates := document_templates test_db;
     program_document_rules := program_document_rules test_db |}.

Definition applicant (current desired : string) (grade : option number)
    (english : option EnglishScore) : Profile :=
  {| nationality := js "Egyptian";
     current_education_level := js current;
     desired_degree_level := js desired;
     gpa := grade;
     english_score := english;
     turkish_score := None;
     has_portfolio := None;
     work_experience_years := None |}.


Definition snapshot_input (p : Profile) (program_id : string)
  : BuildEligibilitySnapshotInput :=
  {| ei_profile := p; ei_program_id := js program_id |}.

Definition timeline_input (program_id : string) (target : option jsstring)
  : BuildTimelineInput :=
  {| ti_profile := applicant "high_school" "bachelor" None None;
     ti_program_id := js program_id;
     ti_intake_target := target |}.

End Fixtures.

(* ================================================================== *)
(** * Part II: lemmas *)
(* ================================================================== *)

(** ** Strings *)
Module JsStringFacts.

Lemma eqb_eq (a b : jsstring) : eqb a b = true <-> a = b.
Proof.
  revert b; induction a as [|x a IH]; destruct b as [|y b]; simpl;
    try (split; [discriminate | discriminate]); try tauto.
  rewrite andb_true_iff, N.eqb_eq, IH.
  split; [intros [-> ->]; reflexivity | intros E; inversion E; auto].
Qed.

Lemma eqb_refl (a : jsstring) : eqb a a = true.
Proof. apply eqb_eq; reflexivity. Qed.

Lemma eqb_neq (a b : jsstring) : eqb a b = false <-> a <> b.
Proof.
  split.
  - intros E H. apply eqb_eq in H. congruence.
  - intros H. destruct (eqb a b) eqn:E; [apply eqb_eq in E; contradiction | reflexivity].
Qed.

Lemma eqb_sym (a b : jsstring) : eqb a b = eqb b a.
Proof.
  destruct (eqb a b) eqn:E.
  - apply eqb_eq in E. subst. symmetry. apply eqb_refl.
  - symmetry. apply eqb_neq. apply eqb_neq in E. congruence.
Qed.

Lemma array_includes_In (xs : list jsstring) (x : jsstring) :
  array_includes xs x = true <-> In x xs.
Proof.
  unfold array_includes. rewrite existsb_exists. split.
  - intros [y [Hy E]]. apply eqb_eq in E. subst. assumption.
  - intros H. exists x. split; [assumption | apply eqb_refl].
Qed.

Lemma nonempty_filter {A : Type} (f : A -> bool) (l : list A) :
  nonempty (filter f l) = existsb f l.
Proof.
  induction l as [|x l IH]; simpl; [reflexivity|].
  destruct (f x); simpl; auto.
Qed.

End JsStringFacts.
Import JsStringFacts.

(** ** Eligibility evaluation *)
Module EligibilityFacts.

Section WithRuntime.
Context {R : Runtime}.

Lemma notes_app_nil (a : Notes) : notes_app a no_notes = a.
Proof.
  destruct a; unfold notes_app; simpl. now rewrite !app_nil_r.
Qed.

Lemma notes_app_assoc (a b c : Notes) :
  notes_app (notes_app a b) c = notes_app a (notes_app b c).
Proof. unfold notes_app; simpl. now rewrite !app_assoc. Qed.

Ltac break_match :=
  match goal with
  | |- context [match ?x with _ => _ end] =>
      match type of x with
      | sumbool _ _ => destruct x
      | _ => destruct x eqn:?
      end
  end.

Lemma push_missing_app (info field : jsstring) (n : Notes) :
  push_missing info field n = notes_app n (push_missing info field no_notes).
Proof.
  unfold push_missing, notes_app; simpl. now rewrite app_nil_r.
Qed.

Lemma push_assumption_app (a : jsstring) (n : Notes) :
  push_assumption a n = notes_app n (push_assumption a no_notes).
Proof.
  unfold push_assumption, notes_app; simpl. now rewrite !app_nil_r.
Qed.

Lemma language_try_split (req : RequirementOutput) (profile : Profile)
    (n : Notes) :
  language_proficiency_try req profile n
  = option_map (fun r => (fst r, notes_app n (snd r)))
               (language_proficiency_try req profile no_notes).
Proof.
  unfold language_proficiency_try.
  repeat (break_match; simpl; try reflexivity);
    rewrite ?notes_app_nil; try reflexivity;
    now rewrite push_missing_app.
Qed.

Lemma evaluateRequirement_split (req : RequirementOutput)
    (profile : Profile) (n : Notes) :
  evaluateRequirement req profile n
  = (reason_of profile req, notes_app n (notes_of profile req)).
Proof.
  unfold reason_of, notes_of, evaluateRequirement.
  destruct (eqb (rule_type req) (js "gpa_minimum")).
  { destruct (gpa profile); simpl;
      [now rewrite notes_app_nil | now rewrite push_missing_app]. }
  destruct (eqb (rule_type req) (js "language_proficiency")).
  { rewrite (language_try_split req profile n).
    destruct (language_proficiency_try req profile no_notes) as [[r m]|];
      simpl; [reflexivity | now rewrite push_assumption_app]. }
  destruct (eqb (rule_type req) (js "portfolio_required")).
  { destruct (has_portfolio profile); simpl;
      [now rewrite notes_app_nil | now rewrite push_missing_app]. }
  destruct (eqb (rule_type req) (js "work_experience")).
  { destruct (work_experience_years profile); simpl;
      [now rewrite notes_app_nil | now rewrite push_missing_app]. }
  simpl. now rewrite push_assumption_app.
Qed.

Lemma fold_evaluate (profile : Profile) (reqs : list RequirementOutput)
    (rs : list EligibilityReason) (n : Notes) :
  fold_left (evaluate_step profile) reqs (rs, n)
  = (rs ++ reasons_from profile reqs,
     notes_app n (notes_from profile reqs)).
Proof.
  revert rs n; induction reqs as [|req reqs IH]; intros rs n; simpl.
  - now rewrite app_nil_r, notes_app_nil.
  - unfold evaluate_step at 2; simpl.
    rewrite (evaluateRequirement_split req profile n).
    destruct (reason_of profile req) as [e|]; rewrite IH; simpl;
      rewrite notes_app_assoc; [now rewrite <- app_assoc | reflexivity].
Qed.

Lemma snapshot_found (input : BuildEligibilitySnapshotInput) (db : Database)
    (detail : ProgramDetailOutput) :
  getProgramDetail db (ei_program_id input) = Some detail ->
  let profile := ei_profile input in
  let rs := education_reason (current_education_level profile)
                             (degree_level detail)
            :: reasons_from profile (requirements detail) in
  let notes := notes_from profile (requirements detail) in
  buildEligibilitySnapshot input db
  = Success {| status := determineStatus rs (missingInfo notes);
               reasons := rs;
               missing_info := missingInfo notes;
               missing_fields := missingFields notes;
               assumptions := noted_assumptions notes;
               disclaimer :=
                 DISCLAIMER_AR ++ [10%N; 10%N] ++ DISCLAIMER_EN |}.
Proof.
  intros H. unfold buildEligibilitySnapshot. rewrite H.
  rewrite fold_evaluate. simpl. reflexivity.
Qed.

Lemma existsb_filter {A : Type} (f g : A -> bool) (l : list A) :
  existsb f (filter g l) = existsb (fun x => g x && f x) l.
Proof.
  induction l as [|x l IH]; simpl; [reflexivity|].
  destruct (g x); simpl; rewrite IH; reflexivity.
Qed.

Lemma determineStatus_unlikely (rs : list EligibilityReason)
    (missing : list jsstring) :
  determineStatus rs missing = unlikely <-> existsb hard_failure rs = true.
Proof.
  unfold determineStatus. rewrite !nonempty_filter, existsb_filter.
  fold hard_failure.
  replace (existsb (fun x => negb (passed x) && data_driven x
                             && is_major_failure x) rs)
    with (existsb hard_failure rs) by reflexivity.
  destruct (existsb hard_failure rs) eqn:E.
  - assert (existsb (fun r => negb (passed r) && data_driven r) rs = true)
      as ->.
    { apply existsb_exists in E. destruct E as [r [Hr E]].
      apply existsb_exists. exists r. split; [assumption|].
      unfold hard_failure in E. now apply andb_true_iff in E. }
    simpl. tauto.
  - rewrite andb_false_r.
    destruct (nonempty missing); [split; discriminate|].
    destruct (forallb passed rs); split; discriminate.
Qed.

Lemma num_lt_not_ge (a b : number) : num_lt a b = true -> num_ge a b = false.
Proof.
  destruct a, b; simpl; try discriminate; try reflexivity.
  intros H. now apply negb_true_iff in H.
Qed.

Lemma checkEducationLevel_master (current : jsstring) :
  checkEducationLevel current (js "master")
  = if eqb current (js "bachelor") || eqb current (js "master")
       || eqb current (js "phd")
    then {| lc_passed := true;
            lc_reason_ar := js "لديك شهادة البكالوريوس المطلوبة";
            lc_reason_en := js "You have the required bachelor degree" |}
    else {| lc_passed := false;
            lc_reason_ar := js "برامج الماجستير تتطلب شهادة البكالوريوس";
            lc_reason_en := js "Master programs require a bachelor degree" |}.
Proof. reflexivity. Qed.

Lemma checkEducationLevel_phd (current : jsstring) :
  checkEducationLevel current (js "phd")
  = if eqb current (js "master") || eqb current (js "phd")
    then {| lc_passed := true;
            lc_reason_ar := js "لديك شهادة الماجستير المطلوبة";
            lc_reason_en := js "You have the required master degree" |}
    else {| lc_passed := false;
            lc_reason_ar := js "برامج الدكتوراه تتطلب شهادة الماجستير";
            lc_reason_en := js "PhD programs require a master degree" |}.
Proof. reflexivity. Qed.

Lemma not_in_eqb (x : jsstring) (xs : list jsstring) :
  ~ In x xs -> forall y, In y xs -> eqb x y = false.
Proof.
  intros H y Hy. apply eqb_neq. intros ->. contradiction.
Qed.

Lemma master_prerequisite_fails (current : jsstring) :
  ~ In current [js "bachelor"; js "master"; js "phd"] ->
  lc_passed (checkEducationLevel current (js "master")) = false
  /\ hard_failure (education_reason current (js "master")) = true.
Proof.
  intros H. pose proof (not_in_eqb _ _ H) as E.
  unfold education_reason. rewrite checkEducationLevel_master.
  rewrite !E by (simpl; tauto). simpl. split; [reflexivity|].
  vm_compute. reflexivity.
Qed.

Lemma phd_prerequisite_fails (current : jsstring) :
  ~ In current [js "master"; js "phd"] ->
  lc_passed (checkEducationLevel current (js "phd")) = false
  /\ hard_failure (education_reason current (js "phd")) = true.
Proof.
  intros H. pose proof (not_in_eqb _ _ H) as E.
  unfold education_reason. rewrite checkEducationLevel_phd.
  rewrite !E by (simpl; tauto). simpl. split; [reflexivity|].
  vm_compute. reflexivity.
Qed.

Lemma reason_of_gpa (profile : Profile) (req : RequirementOutput)
    (g : number) :
  rule_type req = js "gpa_minimum" ->
  gpa profile = Some g ->
  exists e, reason_of profile req = Some e
            /\ reason_rule_type e = js "gpa_minimum"
            /\ passed e = num_ge g (parseFloat (rule_value req))
            /\ data_driven e = true.
Proof.
  intros Hk Hg. unfold reason_of, evaluateRequirement.
  rewrite Hk, eqb_refl, Hg. simpl.
  eexists. split; [reflexivity|]. simpl. auto.
Qed.

Lemma gpa_reason_major (e : EligibilityReason) :
  reason_rule_type e = js "gpa_minimum" -> is_major_failure e = true.
Proof.
  intros H. unfold is_major_failure. rewrite H, eqb_refl. reflexivity.
Qed.

Lemma in_reasons_from (profile : Profile) (reqs : list RequirementOutput)
    (req : RequirementOutput) (e : EligibilityReason) :
  In req reqs -> reason_of profile req = Some e ->
  In e (reasons_from profile reqs).
Proof.
  intros Hin He. unfold reasons_from. apply in_flat_map.
  exists req. split; [assumption|]. rewrite He. now left.
Qed.

(** The prerequisite fails exactly for a master program with a current
    level other than bachelor, master or phd, and for a phd program with a
    current level other than master or phd. *)
Lemma prerequisite_fails_iff (current desired : jsstring) :
  lc_passed (checkEducationLevel current desired) = false
  <-> (desired = js "master"
       /\ ~ In current [js "bachelor"; js "master"; js "phd"])
      \/ (desired = js "phd" /\ ~ In current [js "master"; js "phd"]).
Proof.
  split.
  - unfold checkEducationLevel.
    destruct ((eqb desired (js "bachelor") || eqb desired (js "associate"))
              && (0 <=? indexOf _ current)); [discriminate|].
    destruct (eqb desired (js "master")) eqn:Em.
    + apply eqb_eq in Em.
      destruct (eqb current (js "bachelor") || eqb current (js "master")
                || eqb current (js "phd")) eqn:Ec; [discriminate|].
      intros _. left. split; [assumption|].
      apply orb_false_iff in Ec. destruct Ec as [Ec E3].
      apply orb_false_iff in Ec. destruct Ec as [E1 E2].
      apply eqb_neq in E1, E2, E3. simpl. intuition congruence.
    + destruct (eqb desired (js "phd")) eqn:Ep; [|discriminate].
      apply eqb_eq in Ep.
      destruct (eqb current (js "master") || eqb current (js "phd")) eqn:Ec;
        [discriminate|].
      intros _. right. split; [assumption|].
      apply orb_false_iff in Ec. destruct Ec as [E1 E2].
      apply eqb_neq in E1, E2. simpl. intuition congruence.
  - intros [[-> H] | [-> H]].
    + now apply master_prerequisite_fails.
    + now apply phd_prerequisite_fails.
Qed.

(** C1.  For every profile and every found program: if the education-level
    prerequisite fails (a master program with a current level outside
    bachelor, master, phd; a phd program with a current level outside
    master, phd), or the profile's GPA is strictly below the threshold of
    one of the program's [gpa_minimum] rules, then the evaluation succeeds
    with status [unlikely], whatever else is missing. *)
Theorem hard_disqualifier_is_unlikely
    (input : BuildEligibilitySnapshotInput) (db : Database)
    (detail : ProgramDetailOutput) :
  getProgramDetail db (ei_program_id input) = Some detail ->
  (degree_level detail = js "master"
   /\ ~ In (current_education_level (ei_profile input))
           [js "bachelor"; js "master"; js "phd"])
  \/ (degree_level detail = js "phd"
      /\ ~ In (current_education_level (ei_profile input))
              [js "master"; js "phd"])
  \/ (exists req g,
        In req (requirements detail)
        /\ rule_type req = js "gpa_minimum"
        /\ gpa (ei_profile input) = Some g
        /\ num_lt g (parseFloat (rule_value req)) = true) ->
  exists out,
    buildEligibilitySnapshot input db = Success out
    /\ status out = unlikely.
Proof.
  intros Hfound Hcase.
  rewrite (snapshot_found input db detail Hfound).
  eexists. split; [reflexivity|]. simpl.
  apply determineStatus_unlikely. apply existsb_exists.
  destruct Hcase as [[Hd Hc] | [[Hd Hc] | [req [g [Hin [Hk [Hg Hlt]]]]]]].
  - exists (education_reason (current_education_level (ei_profile input))
                             (degree_level detail)).
    split; [now left|]. rewrite Hd.
    now apply master_prerequisite_fails.
  - exists (education_reason (current_education_level (ei_profile input))
                             (degree_level detail)).
    split; [now left|]. rewrite Hd.
    now apply phd_prerequisite_fails.
  - destruct (reason_of_gpa (ei_profile input) req g Hk Hg)
      as [e [He [Hty [Hp Hdd]]]].
    exists e. split.
    + right. eapply in_reasons_from; eassumption.
    + unfold hard_failure.
      rewrite Hp, (num_lt_not_ge _ _ Hlt), Hdd, (gpa_reason_major e Hty).
      reflexivity.
Qed.











(** The two ways a stored payload can be unreadable.  A language rule
    whose text is not JSON is logged and contributes nothing ... *)
Lemma invalid_json_is_logged (profile : Profile) (req : RequirementOutput) :
  rule_type req = js "language_proficiency" ->
  JSON_parse (rule_value req) = None ->
  reason_of profile req = None
  /\ notes_of profile req
     = push_assumption
         (js "Could not parse language requirement - defaulting to needs review")
         no_notes.
Proof.
  intros Hk Hp. unfold reason_of, notes_of, evaluateRequirement.
  rewrite Hk. change (eqb (js "language_proficiency") (js "gpa_minimum"))
    with false. rewrite eqb_refl. cbv beta iota.
  unfold language_proficiency_try. rewrite Hp. split; reflexivity.
Qed.

(** ... while a grade rule whose text is not a number yields a failed
    [gpa_minimum] reason, a hard failure, and logs nothing. *)
Lemma nan_threshold_is_hard_failure (profile : Profile)
    (req : RequirementOutput) (g : number) :
  rule_type req = js "gpa_minimum" ->
  gpa profile = Some g ->
  parseFloat (rule_value req) = NaN ->
  notes_of profile req = no_notes
  /\ exists e, reason_of profile req = Some e /\ hard_failure e = true.
Proof.
  intros Hk Hg Hnan. split.
  - unfold notes_of, evaluateRequirement. now rewrite Hk, eqb_refl, Hg.
  - destruct (reason_of_gpa profile req g Hk Hg) as [e [He [Hty [Hp Hdd]]]].
    exists e. split; [assumption|]. unfold hard_failure.
    rewrite Hp, Hnan, Hdd, (gpa_reason_major e Hty).
    destruct g; reflexivity.
Qed.

End WithRuntime.

Import Reference Fixtures.

(** The grade 30 against the minimum of 60 of the test catalog. *)
Lemma hard_disqualifier_is_unlikely_witness :
  exists out,
    buildEligibilitySnapshot (R := reference_runtime)
      (snapshot_input (applicant "high_school" "bachelor" (Some (Fin 30)) None)
                      "prog-bachelor") test_db
    = Success out
    /\ status out = unlikely.
Proof.
  destruct (getProgramDetail test_db (js "prog-bachelor")) as [detail|] eqn:E;
    [|vm_compute in E; discriminate].
  apply (hard_disqualifier_is_unlikely (R := reference_runtime)
           (snapshot_input
              (applicant "high_school" "bachelor" (Some (Fin 30)) None)
              "prog-bachelor") test_db detail E).
  right. right.
  vm_compute in E. injection E as <-.
  eexists. exists (Fin 30).
  split; [left; reflexivity|].
  repeat split; vm_compute; reflexivity.
Defined.



(** C3.  A requirement rule whose payload cannot be read must be logged as
    an assumption and never count against the student.  The code does so
    for a language rule that is not JSON, but not for a grade rule that is
    not a number: with the rules [gpa_minimum "N/A"] and
    [language_proficiency "IELTS 6.0 or above"] and a declared grade of 85,
    the only assumption logged is the one of the language rule, the grade
    rule yields a failed reason and the status is [unlikely]. *)
Theorem unreadable_grade_rule_fails_applicant :
  exists out,
    buildEligibilitySnapshot (R := reference_runtime)
      (snapshot_input (applicant "high_school" "bachelor" (Some (Fin 85)) None)
                      "prog-draft") test_db
    = Success out
    /\ status out = unlikely
    /\ assumptions out
       = [js "Could not parse language requirement - defaulting to needs review"]
    /\ existsb (fun r => eqb (reason_rule_type r) (js "gpa_minimum")
                         && negb (passed r)) (reasons out) = true.
Proof.
  eexists. split; [vm_compute; reflexivity|].
  repeat split; vm_compute; reflexivity.
Qed.

End EligibilityFacts.

(** ** Catalog queries *)
Module CatalogFacts.
Import Fixtures.

Section Sorting.
Context {A : Type} (before : A -> A -> bool).

Lemma insert_sorted_perm (x : A) (l : list A) :
  Permutation (insert_sorted before x l) (x :: l).
Proof.
  induction l as [|y l IH]; simpl; [reflexivity|].
  destruct (before x y); [reflexivity|].
  rewrite IH. apply perm_swap.
Qed.

Lemma stable_sort_perm (l : list A) : Permutation (stable_sort before l) l.
Proof.
  induction l as [|x l IH]; simpl; [reflexivity|].
  rewrite insert_sorted_perm. now apply perm_skip.
Qed.

Lemma stable_sort_In (l : list A) (x : A) :
  In x (stable_sort before l) <-> In x l.
Proof.
  split; apply Permutation_in;
    [apply stable_sort_perm | symmetry; apply stable_sort_perm].
Qed.

End Sorting.

Lemma document_join_In (db : Database) (programId : jsstring)
    (pdr : ProgramDocumentRuleRow) (dt : DocumentTemplateRow) :
  In (pdr, dt) (document_join db programId)
  <-> In pdr (program_document_rules db)
      /\ In dt (document_templates db)
      /\ pdr_program_id pdr = programId
      /\ pdr_doc_key pdr = dt_doc_key dt.
Proof.
  unfold document_join. rewrite in_flat_map. split.
  - intros [p [Hp H]].
    destruct (eqb (pdr_program_id p) programId) eqn:E; [|contradiction].
    apply in_map_iff in H. destruct H as [t [Ht H]].
    injection Ht as -> ->. apply filter_In in H. destruct H as [H K].
    apply eqb_eq in E, K. auto.
  - intros [Hp [Ht [E K]]]. exists pdr. split; [assumption|].
    apply eqb_eq in E. rewrite E. apply in_map, filter_In.
    split; [assumption | now apply eqb_eq].
Qed.

(** C4.  Every document resolved for a program comes from one override
    row of the program joined to its template, and: a translation (or
    notarization) flag the override sets carries the override's value
    (1 is true, 0 is false); a flag the override leaves unset carries the
    template default; a required flag that is absent makes the document
    required. *)
Theorem document_resolution_override_correct (db : Database)
    (programId : jsstring) (d : DocumentOutput) :
  In d (getDocuments db programId) ->
  exists pdr dt,
    In pdr (program_document_rules db)
    /\ In dt (document_templates db)
    /\ pdr_program_id pdr = programId
    /\ pdr_doc_key pdr = dt_doc_key dt
    /\ doc_key d = dt_doc_key dt
    /\ (forall v, pdr_translation_required pdr = Some v ->
                  translation_required d = (v =? 1))
    /\ (pdr_translation_required pdr = None ->
        translation_required d = (dt_translation_required_default dt =? 1))
    /\ (forall v, pdr_notarization_required pdr = Some v ->
                  notarization_required d = (v =? 1))
    /\ (pdr_notarization_required pdr = None ->
        notarization_required d
        = (dt_notarization_required_default dt =? 1))
    /\ (pdr_required_flag pdr = None -> required d = true).
Proof.
  unfold getDocuments. intros H. apply in_map_iff in H.
  destruct H as [[pdr dt] [<- H]].
  apply stable_sort_In, document_join_In in H.
  destruct H as [Hp [Ht [E K]]].
  exists pdr, dt. simpl.
  repeat split; try assumption; try (intros v Hv; now rewrite Hv);
    intros Hv; now rewrite Hv.
Qed.

(** The passport copy of the master program: translation set to 1,
    notarization set to 0 over template defaults 0 and 0, required flag
    absent. *)
Lemma document_resolution_override_correct_witness :
  exists d,
    In d (getDocuments test_db (js "prog-master"))
    /\ translation_required d = true
    /\ notarization_required d = false
    /\ required d = true.
Proof.
  destruct (getDocuments test_db (js "prog-master")) as [|d rest] eqn:E;
    [vm_compute in E; discriminate|].
  assert (In d (getDocuments test_db (js "prog-master"))) as Hd
    by (rewrite E; now left).
  destruct (document_resolution_override_correct test_db (js "prog-master")
              d Hd)
    as [pdr [dt [Hp [Ht [Hprog [Hkey [_ [Htr [_ [Hno [_ Hreq]]]]]]]]]]].
  exists d. split; [now left|].
  simpl in Hp.
  destruct Hp as [<- | [<- | [<- | [<- | [<- | [<- | []]]]]]];
    try (vm_compute in Hprog; discriminate).
  repeat split.
  - apply (Htr 1). reflexivity.
  - apply (Hno 0). reflexivity.
  - apply Hreq. reflexivity.
Defined.

(** Conversely every joined pair is resolved. *)
Lemma joined_pair_is_resolved (db : Database) (programId : jsstring)
    (pdr : ProgramDocumentRuleRow) (dt : DocumentTemplateRow) :
  In pdr (program_document_rules db) ->
  In dt (document_templates db) ->
  pdr_program_id pdr = programId ->
  pdr_doc_key pdr = dt_doc_key dt ->
  In (document_output (pdr, dt)) (getDocuments db programId).
Proof.
  intros Hp Ht E K. unfold getDocuments. apply in_map.
  apply stable_sort_In, document_join_In. auto.
Qed.

Lemma requirement_selected_scopes (db : Database) (programId : jsstring)
    (r : RequirementRow) :
  requirement_selected db programId r
  = program_scoped programId r || institution_scoped db programId r.
Proof.
  unfold requirement_selected, program_scoped, institution_scoped.
  destruct (r_program_id r) as [q|].
  - now rewrite orb_false_r.
  - destruct (university_of_program db programId); reflexivity.
Qed.

(** C9, amended.  The requirement set of a program consists of all the
    program-scoped rules and all the institution-scoped rules of its
    university, whatever their kinds: no rule is left out because another
    rule has the same kind. *)
Theorem requirements_are_both_tiers (db : Database) (programId : jsstring)
    (out : RequirementOutput) :
  In out (getRequirements db programId)
  <-> exists r,
        In r (requirements_table db)
        /\ out = requirement_output r
        /\ (program_scoped programId r = true
            \/ institution_scoped db programId r = true).
Proof.
  unfold getRequirements. rewrite in_map_iff. split.
  - intros [r [<- H]]. apply stable_sort_In, filter_In in H.
    destruct H as [H S]. rewrite requirement_selected_scopes in S.
    exists r. apply orb_true_iff in S. auto.
  - intros [r [H [-> S]]]. exists r. split; [reflexivity|].
    apply stable_sort_In, filter_In. split; [assumption|].
    rewrite requirement_selected_scopes. now apply orb_true_iff.
Qed.

(** C9 fails as it is stated: with a grade rule of the program and a
    grade rule of its university, the code returns both, where the
    two-tier lookup keeps the program's rule only. *)
Lemma institution_rule_kept_counterexample :
  map (fun out => (req_id out, rule_type out, rule_value out))
      (getRequirements layered_db (js "prog-bachelor"))
  = [(js "req-1", js "gpa_minimum", js "60");
     (js "req-uni", js "gpa_minimum", js "80");
     (js "req-2", js "language_proficiency",
      quoted "{'type':'english','ielts':5.5,'toefl':70}")]
  /\ map r_id (two_tier_requirements layered_db (js "prog-bachelor"))
     = [js "req-1"; js "req-2"]
  /\ r_program_id institution_rule = None
  /\ getRequirements layered_db (js "prog-bachelor")
     <> map requirement_output
            (two_tier_requirements layered_db (js "prog-bachelor")).
Proof.
  repeat split; try (vm_compute; reflexivity).
  vm_compute. discriminate.
Qed.

(** The rules of the two-tier lookup are always among the rules the code
    returns. *)
Lemma two_tier_is_included (db : Database) (programId : jsstring)
    (r : RequirementRow) :
  In r (two_tier_requirements db programId) ->
  In (requirement_output r) (getRequirements db programId).
Proof.
  unfold two_tier_requirements, getRequirements. intros H.
  apply in_map, stable_sort_In, filter_In.
  rewrite requirement_selected_scopes.
  apply in_app_or in H. destruct H as [H | H]; apply filter_In in H;
    destruct H as [H S]; split; try assumption.
  - now rewrite S.
  - apply andb_true_iff in S. destruct S as [S _]. rewrite S.
    apply orb_true_r.
Qed.

End CatalogFacts.

(** ** Checklist and timeline *)
Module TimelineFacts.
Import Fixtures CatalogFacts.

Lemma checklist_found (input : BuildDocumentChecklistInput) (db : Database)
    (detail : ProgramDetailOutput) :
  getProgramDetail db (ci_program_id input) = Some detail ->
  exists out,
    buildDocumentChecklist input db = Success out
    /\ items out = checklist_items (ci_profile input) detail.
Proof.
  intros H. unfold buildDocumentChecklist, checklist_items. rewrite H.
  destruct (fold_left _ _ _) as [collected noted].
  eexists. split; reflexivity.
Qed.

Lemma checklist_not_found (input : BuildDocumentChecklistInput)
    (db : Database) :
  getProgramDetail db (ci_program_id input) = None ->
  buildDocumentChecklist input db
  = Failure (js "PROGRAM_NOT_FOUND") (js "البرنامج غير موجود")
            (js "Program not found").
Proof. intros H. unfold buildDocumentChecklist. now rewrite H. Qed.

(** The shape of a successful call. *)
Lemma timeline_found (today : Z) (input : BuildTimelineInput) (db : Database)
    (detail : ProgramDetailOutput) :
  getProgramDetail db (ti_program_id input) = Some detail ->
  let tasks := timeline_tasks (ti_profile input) detail in
  let resolved := resolve_intake (ti_intake_target input) (intakes detail) in
  buildTimeline today input db
  = Success
      {| weeks := generateWeeklySchedule today tasks 8 (critical_path tasks);
         critical_path_items := critical_path tasks;
         target_intake := fst (fst resolved);
         timeline_assumptions :=
           snd resolved
           ++ (if negb (snd (fst resolved)) then [EIGHT_WEEK_PERIOD] else [])
           ++ (if existsb (fun t => t_estimated_days t =? 0) tasks
               then [js "Some task durations are estimated based on typical processing times"]
               else []) |}.
Proof.
  intros H tasks resolved.
  destruct (checklist_found
              {| ci_profile := ti_profile input;
                 ci_program_id := ti_program_id input |} db detail H)
    as [checklist [Hc Hi]].
  unfold buildTimeline. rewrite Hc, H, Hi.
  change (stable_sort task_before
            (map task_of_item
               (checklist_items
                  (ci_profile {| ci_profile := ti_profile input;
                                 ci_program_id := ti_program_id input |})
                  detail)))
    with tasks.
  fold resolved. destruct resolved as [[target known] notes].
  destruct known;
    cbv beta iota zeta delta [fst snd negb EIGHT_WEEK_PERIOD]; reflexivity.
Qed.

(** Every call on an existing program succeeds. *)
Lemma timeline_total (today : Z) (input : BuildTimelineInput) (db : Database)
    (detail : ProgramDetailOutput) :
  getProgramDetail db (ti_program_id input) = Some detail ->
  exists out, buildTimeline today input db = Success out.
Proof.
  intros H. rewrite (timeline_found today input db detail H). eauto.
Qed.

Lemma timeline_success_found (today : Z) (input : BuildTimelineInput)
    (db : Database) (out : TimelineOutput) :
  buildTimeline today input db = Success out ->
  exists detail, getProgramDetail db (ti_program_id input) = Some detail.
Proof.
  unfold buildTimeline, buildDocumentChecklist. simpl.
  destruct (getProgramDetail db (ti_program_id input)) as [detail|];
    [eauto | discriminate].
Qed.

(** A missing program: the checklist reports PROGRAM_NOT_FOUND, and the
    timeline replaces it by CHECKLIST_ERROR. *)
Lemma timeline_not_found (today : Z) (input : BuildTimelineInput)
    (db : Database) :
  getProgramDetail db (ti_program_id input) = None ->
  buildTimeline today input db
  = Failure (js "CHECKLIST_ERROR")
            (js "لم نتمكن من تحديد المستندات المطلوبة")
            (js "Could not determine required documents").
Proof.
  intros H. unfold buildTimeline, buildDocumentChecklist. simpl.
  now rewrite H.
Qed.

(** C6.  A call for a program that is not in the catalog must fail with
    the NOT_FOUND condition of the document planner.  It fails, but with
    another condition: for the id [non-existent] the checklist returns
    PROGRAM_NOT_FOUND and the timeline returns CHECKLIST_ERROR. *)
Theorem missing_program_reported_as_checklist_error :
  getProgramDetail test_db (js "non-existent") = None
  /\ buildDocumentChecklist
       {| ci_profile := ti_profile (timeline_input "non-existent" None);
          ci_program_id := js "non-existent" |} test_db
     = Failure (js "PROGRAM_NOT_FOUND") (js "البرنامج غير موجود")
               (js "Program not found")
  /\ buildTimeline 0 (timeline_input "non-existent" None) test_db
     = Failure (js "CHECKLIST_ERROR")
               (js "لم نتمكن من تحديد المستندات المطلوبة")
               (js "Could not determine required documents")
  /\ js "CHECKLIST_ERROR" <> js "PROGRAM_NOT_FOUND".
Proof.
  assert (getProgramDetail test_db (js "non-existent") = None) as H
    by (vm_compute; reflexivity).
  split; [exact H|]. split; [now apply checklist_not_found|].
  split; [now apply timeline_not_found|].
  vm_compute. discriminate.
Qed.

Lemma weekly_schedule_numbers (today : Z) (tasks : list Task)
    (critical : list jsstring) :
  map week_number (generateWeeklySchedule today tasks 8 critical)
  = [1; 2; 3; 4; 5; 6; 7; 8].
Proof. reflexivity. Qed.

Lemma weekly_schedule_last (today : Z) (tasks : list Task)
    (critical : list jsstring) :
  exists final,
    last (generateWeeklySchedule today tasks 8 critical) final = final
    /\ nth_error (generateWeeklySchedule today tasks 8 critical) 7
       = Some final
    /\ week_number final = 8
    /\ week_tasks final = [final_review_task; submission_task].
Proof.
  eexists. split; [|split; [reflexivity | split; reflexivity]].
  reflexivity.
Qed.

(** C10.  Every successful result has exactly the eight weeks numbered 1
    to 8, whether or not the intake was resolved, and the task list of the
    final week contains the submission task. *)
Theorem timeline_has_eight_weeks (today : Z) (input : BuildTimelineInput)
    (db : Database) (out : TimelineOutput) :
  buildTimeline today input db = Success out ->
  map week_number (weeks out) = [1; 2; 3; 4; 5; 6; 7; 8]
  /\ exists final,
       nth_error (weeks out) 7 = Some final
       /\ week_number final = 8
       /\ In submission_task (week_tasks final)
       /\ tt_doc_key submission_task = js "submission".
Proof.
  intros H.
  destruct (timeline_success_found today input db out H) as [detail Hd].
  rewrite (timeline_found today input db detail Hd) in H.
  injection H as <-. cbn [weeks].
  split; [apply weekly_schedule_numbers|].
  destruct (weekly_schedule_last today
              (timeline_tasks (ti_profile input) detail)
              (critical_path (timeline_tasks (ti_profile input) detail)))
    as [final [_ [Hn [Hw Ht]]]].
  exists final. rewrite Ht.
  split; [exact Hn|]. split; [exact Hw|].
  split; [right; left; reflexivity | reflexivity].
Qed.

(** The bachelor program of the test catalog. *)
Lemma timeline_has_eight_weeks_witness :
  exists out,
    buildTimeline 0 (timeline_input "prog-bachelor" None) test_db
    = Success out
    /\ map week_number (weeks out) = [1; 2; 3; 4; 5; 6; 7; 8].
Proof.
  destruct (buildTimeline 0 (timeline_input "prog-bachelor" None) test_db)
    as [out|] eqn:E; [|vm_compute in E; discriminate].
  exists out. split; [reflexivity|].
  exact (proj1 (timeline_has_eight_weeks 0
                  (timeline_input "prog-bachelor" None) test_db out E)).
Defined.















End TimelineFacts.

(** ** Keyword expansion *)
Module SearchFacts.
Import Fixtures.

(** *** Normalization is idempotent *)

Lemma lower_unit_output_fixed (u v : code_unit) :
  In v (lower_unit u) -> lower_unit v = [v].
Proof.
  unfold lower_unit.
  destruct ((65 <=? u) && (u <=? 90))%N eqn:Eu.
  - apply andb_true_iff in Eu. destruct Eu as [E1 E2].
    apply N.leb_le in E1, E2. intros [<- | []].
    replace ((65 <=? u + 32) && (u + 32 <=? 90))%N with false
      by (symmetry; apply andb_false_iff; right; apply N.leb_gt; lia).
    replace (u + 32 =? 304)%N with false
      by (symmetry; apply N.eqb_neq; lia).
    replace (u + 32 =? 8490)%N with false
      by (symmetry; apply N.eqb_neq; lia).
    reflexivity.
  - destruct (u =? 304)%N eqn:E3.
    + intros [<- | [<- | []]]; reflexivity.
    + destruct (u =? 8490)%N eqn:E4.
      * intros [<- | []]; reflexivity.
      * intros [<- | []]. now rewrite Eu, E3, E4.
Qed.

Lemma toLowerCase_fixed (s : jsstring) :
  Forall (fun v => lower_unit v = [v]) s -> toLowerCase s = s.
Proof.
  induction 1 as [|v s Hv _ IH]; [reflexivity|].
  unfold toLowerCase in *. simpl. now rewrite Hv, IH.
Qed.

Lemma toLowerCase_output_fixed (s : jsstring) :
  Forall (fun v => lower_unit v = [v]) (toLowerCase s).
Proof.
  apply Forall_forall. intros v Hv. unfold toLowerCase in Hv.
  apply in_flat_map in Hv. destruct Hv as [u [_ Hv]].
  now apply (lower_unit_output_fixed u).
Qed.

Lemma trimStart_incl (s : jsstring) (u : code_unit) :
  In u (trimStart s) -> In u s.
Proof.
  induction s as [|c s IH]; simpl; [tauto|].
  destruct (is_white_space c); simpl; tauto.
Qed.

Lemma trimEnd_incl (s : jsstring) (u : code_unit) :
  In u (trimEnd s) -> In u s.
Proof.
  induction s as [|c s IH]; simpl; [tauto|].
  destruct (trimEnd s) as [|d r].
  - destruct (is_white_space c); simpl; tauto.
  - simpl in *. intros [H | H]; auto.
Qed.

Lemma trim_incl (s : jsstring) (u : code_unit) : In u (trim s) -> In u s.
Proof. intros H. now apply trimStart_incl, trimEnd_incl. Qed.

Lemma filter_fixed {A : Type} (f : A -> bool) (l : list A) :
  Forall (fun x => f x = true) l -> filter f l = l.
Proof.
  induction 1 as [|x l Hx _ IH]; simpl; [reflexivity|].
  now rewrite Hx, IH.
Qed.

Lemma trimStart_clean (s : jsstring) : starts_clean (trimStart s).
Proof.
  induction s as [|c s IH]; simpl; [exact I|].
  destruct (is_white_space c) eqn:E; [exact IH | exact E].
Qed.

Lemma trimStart_of_clean (s : jsstring) : starts_clean s -> trimStart s = s.
Proof.
  destruct s as [|c s]; simpl; [reflexivity|]. now intros ->.
Qed.

Lemma trimEnd_keeps_clean (s : jsstring) :
  starts_clean s -> starts_clean (trimEnd s).
Proof.
  destruct s as [|c s]; simpl; [auto|]. intros E.
  destruct (trimEnd s); [rewrite E|]; exact E.
Qed.

Lemma trimEnd_idempotent (s : jsstring) : trimEnd (trimEnd s) = trimEnd s.
Proof.
  induction s as [|c s IH]; simpl; [reflexivity|].
  destruct (trimEnd s) as [|d r] eqn:E.
  - destruct (is_white_space c) eqn:W; simpl; [reflexivity|].
    now rewrite W.
  - simpl in *. rewrite IH. reflexivity.
Qed.

Lemma trim_idempotent (s : jsstring) : trim (trim s) = trim s.
Proof.
  unfold trim.
  rewrite (trimStart_of_clean (trimEnd (trimStart s))).
  - apply trimEnd_idempotent.
  - apply trimEnd_keeps_clean, trimStart_clean.
Qed.

Lemma normalizeKeyword_idempotent (keyword : jsstring) :
  normalizeKeyword (normalizeKeyword keyword) = normalizeKeyword keyword.
Proof.
  unfold normalizeKeyword.
  set (t := trim (filter is_retained (toLowerCase keyword))).
  assert (Forall (fun v => lower_unit v = [v]) t) as Hl.
  { apply Forall_forall. intros v Hv. apply trim_incl, filter_In in Hv.
    destruct Hv as [Hv _].
    pose proof (toLowerCase_output_fixed keyword) as H.
    rewrite Forall_forall in H. now apply H. }
  assert (Forall (fun v => is_retained v = true) t) as Hr.
  { apply Forall_forall. intros v Hv. apply trim_incl, filter_In in Hv.
    tauto. }
  rewrite (toLowerCase_fixed t Hl), (filter_fixed _ t Hr).
  apply trim_idempotent.
Qed.

(** *** The synonym table *)

Lemma table_groups_normalized_b :
  forallb (fun e => forallb (fun x => eqb (normalizeKeyword x) x)
                            (synonym_group e))
          KEYWORD_SYNONYMS = true.
Proof. vm_compute. reflexivity. Qed.

Lemma table_groups_indexable_b :
  forallb (fun e =>
             forallb (fun x => match index KEYWORD_SYNONYMS x with
                               | Inherited => false
                               | _ => true
                               end)
                     (synonym_group e))
          KEYWORD_SYNONYMS = true.
Proof. vm_compute. reflexivity. Qed.

Lemma group_member_normalized (e : jsstring * list jsstring) (x : jsstring) :
  In e KEYWORD_SYNONYMS -> In x (synonym_group e) -> normalizeKeyword x = x.
Proof.
  intros He Hx. pose proof table_groups_normalized_b as H.
  rewrite forallb_forall in H. specialize (H e He).
  rewrite forallb_forall in H. apply eqb_eq. now apply H.
Qed.

Lemma group_member_indexable (e : jsstring * list jsstring) (x : jsstring) :
  In e KEYWORD_SYNONYMS -> In x (synonym_group e) ->
  index KEYWORD_SYNONYMS x <> Inherited.
Proof.
  intros He Hx. pose proof table_groups_indexable_b as H.
  rewrite forallb_forall in H. specialize (H e He).
  rewrite forallb_forall in H. specialize (H x Hx).
  intros E. rewrite E in H. discriminate.
Qed.

Lemma lookup_In {V : Type} (table : list (jsstring * V)) (k : jsstring)
    (v : V) :
  lookup table k = Some v -> In (k, v) table.
Proof.
  induction table as [|[k' v'] table IH]; simpl; [discriminate|].
  destruct (eqb k' k) eqn:E.
  - apply eqb_eq in E. intros H. injection H as ->. subst. now left.
  - intros H. right. now apply IH.
Qed.

Lemma same_group_member_normalized (a x : jsstring) :
  same_group a x -> normalizeKeyword x = x.
Proof.
  intros [e [He [_ Hx]]]. now apply (group_member_normalized e).
Qed.

Lemma same_group_member_indexable (a x : jsstring) :
  same_group a x -> index KEYWORD_SYNONYMS x <> Inherited.
Proof.
  intros [e [He [_ Hx]]]. now apply (group_member_indexable e).
Qed.

(** *** Sets in insertion order *)

Lemma set_add_In (x y : jsstring) (set : list jsstring) :
  In x (set_add y set) <-> x = y \/ In x set.
Proof.
  unfold set_add. destruct (array_includes set y) eqn:E.
  - apply array_includes_In in E. split; [auto|]. intros [-> | H]; auto.
  - rewrite in_app_iff. simpl. intuition.
Qed.

Lemma set_add_all_In (x : jsstring) (ys set : list jsstring) :
  In x (set_add_all ys set) <-> In x ys \/ In x set.
Proof.
  unfold set_add_all. revert set.
  induction ys as [|y ys IH]; intros set; simpl; [tauto|].
  rewrite IH, set_add_In. intuition.
Qed.

(** *** One expansion step stays inside the groups of the keyword *)

Lemma containing_groups_In (normalized x : jsstring)
    (entries : list (jsstring * list jsstring)) (set : list jsstring) :
  In x (fold_left
          (fun acc entry =>
             let '(mainTerm, syns) := entry in
             if existsb (fun s => eqb (normalizeKeyword s) normalized) syns
             then set_add_all (map normalizeKeyword syns)
                              (set_add (normalizeKeyword mainTerm) acc)
             else acc)
          entries set)
  <-> In x set
      \/ exists entry,
           In entry entries
           /\ In normalized (map normalizeKeyword (snd entry))
           /\ In x (synonym_group entry).
Proof.
  revert set. induction entries as [|[mainTerm syns] entries IH];
    intros set; simpl.
  - split; [auto | intros [H | [e [[] _]]]; exact H].
  - rewrite IH. clear IH.
    assert (existsb (fun s => eqb (normalizeKeyword s) normalized) syns = true
            <-> In normalized (map normalizeKeyword syns)) as Hex.
    { rewrite existsb_exists, in_map_iff.
      split; intros [s [H K]]; exists s.
      - apply eqb_eq in K. auto.
      - split; [tauto | apply eqb_eq; tauto]. }
    destruct (existsb _ syns) eqn:E.
    + rewrite set_add_all_In, set_add_In. split.
      * intros [[H | [H | H]] | [e [He K]]]; eauto.
        -- right. exists (mainTerm, syns). unfold synonym_group. simpl.
           split; [auto|]. split; [now apply Hex | auto].
        -- right. exists (mainTerm, syns). unfold synonym_group. simpl.
           split; [auto|]. split; [now apply Hex | auto].
      * intros [H | [e [[<- | He] [Hn Hx]]]]; eauto.
        unfold synonym_group in Hx. simpl in Hx.
        destruct Hx as [<- | Hx]; auto.
    + split.
      * intros [H | [e [He K]]]; eauto.
      * intros [H | [e [[<- | He] [Hn Hx]]]]; eauto.
        simpl in Hn. apply Hex in Hn. discriminate.
Qed.

Lemma add_containing_groups_In (normalized x : jsstring)
    (set : list jsstring) :
  In x (add_containing_groups normalized set)
  <-> In x set
      \/ exists entry,
           In entry KEYWORD_SYNONYMS
           /\ In normalized (map normalizeKeyword (snd entry))
           /\ In x (synonym_group entry).
Proof. apply containing_groups_In. Qed.

Lemma index_own (k : jsstring) (synonyms : list jsstring) :
  index KEYWORD_SYNONYMS k = Own synonyms -> In (k, synonyms) KEYWORD_SYNONYMS.
Proof.
  unfold index. destruct (lookup KEYWORD_SYNONYMS k) as [v|] eqn:E.
  - intros H. injection H as ->. now apply lookup_In.
  - destruct (array_includes inherited_members k); discriminate.
Qed.

Lemma same_group_of_entry (entry : jsstring * list jsstring)
    (a x : jsstring) :
  In entry KEYWORD_SYNONYMS ->
  In a (synonym_group entry) -> In x (synonym_group entry) ->
  same_group a x.
Proof. intros He Ha Hx. exists entry. auto. Qed.

(** What one turn of the loop adds: the normalized keyword and members of
    groups that contain it. *)
Lemma expand_keyword_In (acc acc' : Expansion) (keyword x : jsstring) :
  expand_keyword acc keyword = Some acc' ->
  In x (expanded acc') ->
  In x (expanded acc)
  \/ x = normalizeKeyword keyword
  \/ same_group (normalizeKeyword keyword) x.
Proof.
  unfold expand_keyword. set (normalized := normalizeKeyword keyword).
  assert (forall set,
             In x (add_containing_groups normalized set) ->
             In x set \/ same_group normalized x) as Hgroups.
  { intros set H. apply add_containing_groups_In in H.
    destruct H as [H | [entry [He [Hn Hx]]]]; [auto|]. right.
    apply (same_group_of_entry entry); try assumption.
    unfold synonym_group. now right. }
  destruct (index KEYWORD_SYNONYMS normalized) as [synonyms| |] eqn:E;
    [|discriminate|]; intros H; injection H as <-; simpl; intros Hx;
    apply Hgroups in Hx.
  - destruct Hx as [Hx | Hx]; [|auto].
    apply set_add_all_In in Hx. destruct Hx as [Hx | Hx].
    + right. right. apply index_own in E.
      apply (same_group_of_entry (normalized, synonyms)); try assumption.
      * unfold synonym_group. simpl. left.
        apply normalizeKeyword_idempotent.
      * unfold synonym_group. simpl. now right.
    + apply set_add_In in Hx. tauto.
  - destruct Hx as [Hx | Hx]; [|auto].
    apply set_add_In in Hx. tauto.
Qed.

(** What one turn keeps: everything collected so far, and the normalized
    keyword. *)
Lemma expand_keyword_keeps (acc acc' : Expansion) (keyword x : jsstring) :
  expand_keyword acc keyword = Some acc' ->
  In x (expanded acc) \/ x = normalizeKeyword keyword ->
  In x (expanded acc').
Proof.
  unfold expand_keyword. set (normalized := normalizeKeyword keyword).
  destruct (index KEYWORD_SYNONYMS normalized) as [synonyms| |];
    [|discriminate|]; intros H; injection H as <-; simpl; intros Hx;
    apply add_containing_groups_In; left.
  - apply set_add_all_In. right. apply set_add_In. tauto.
  - apply set_add_In. tauto.
Qed.

Lemma expand_keyword_total (acc : Expansion) (keyword : jsstring) :
  index KEYWORD_SYNONYMS (normalizeKeyword keyword) <> Inherited
  <-> exists acc', expand_keyword acc keyword = Some acc'.
Proof.
  unfold expand_keyword.
  destruct (index KEYWORD_SYNONYMS (normalizeKeyword keyword));
    split; eauto; try discriminate.
  - intros H. contradiction.
  - intros [acc' H]. discriminate.
Qed.

Lemma expand_from_In (keywords : list jsstring) (acc result : Expansion)
    (x : jsstring) :
  expand_from acc keywords = Some result ->
  In x (expanded result) ->
  In x (expanded acc)
  \/ exists k, In k keywords
               /\ (x = normalizeKeyword k
                   \/ same_group (normalizeKeyword k) x).
Proof.
  revert acc. induction keywords as [|k keywords IH]; intros acc; simpl.
  - intros H. injection H as <-. auto.
  - destruct (expand_keyword acc k) as [acc'|] eqn:E; [|discriminate].
    intros H Hx. destruct (IH acc' H Hx) as [Hacc | [k' [Hk Hx']]].
    + destruct (expand_keyword_In acc acc' k x E Hacc) as [Ha | Ha];
        [auto | right; exists k; auto].
    + right. exists k'. auto.
Qed.

Lemma expand_from_keeps (keywords : list jsstring) (acc result : Expansion)
    (x : jsstring) :
  expand_from acc keywords = Some result ->
  In x (expanded acc) \/ (exists k, In k keywords /\ x = normalizeKeyword k) ->
  In x (expanded result).
Proof.
  revert acc. induction keywords as [|k keywords IH]; intros acc; simpl.
  - intros H. injection H as <-. intros [H | [k [[] _]]]. exact H.
  - destruct (expand_keyword acc k) as [acc'|] eqn:E; [|discriminate].
    intros H Hx. apply (IH acc' H).
    destruct Hx as [Hx | [k' [[<- | Hk] ->]]].
    + left. apply (expand_keyword_keeps acc acc' k x E). auto.
    + left. apply (expand_keyword_keeps acc acc' k _ E). auto.
    + right. eauto.
Qed.

Lemma expand_from_total (keywords : list jsstring) (acc : Expansion) :
  (forall k, In k keywords ->
             index KEYWORD_SYNONYMS (normalizeKeyword k) <> Inherited)
  <-> exists result, expand_from acc keywords = Some result.
Proof.
  revert acc. induction keywords as [|k keywords IH]; intros acc; simpl.
  - split; [eauto | intros _ k []].
  - split.
    + intros H.
      destruct (proj1 (expand_keyword_total acc k) (H k (or_introl eq_refl)))
        as [acc' E].
      rewrite E. apply IH. intros k' Hk. apply H. now right.
    + intros [result H] k' [<- | Hk].
      * apply (expand_keyword_total acc k).
        destruct (expand_keyword acc k); [eauto | discriminate].
      * destruct (expand_keyword acc k) as [acc'|]; [|discriminate].
        apply (proj2 (IH acc')); eauto.
Qed.

(** The expansion returns unless a keyword normalizes to the name of an
    inherited member. *)
Lemma expandKeywords_total (keywords : list jsstring) :
  (forall k, In k keywords ->
             index KEYWORD_SYNONYMS (normalizeKeyword k) <> Inherited)
  <-> exists result, expandKeywords keywords = Some result.
Proof. apply expand_from_total. Qed.

(** C8.  Where the expansion of a keyword list returns a set, expanding
    that set returns a set again, which contains the first one and adds
    nothing beyond the transitive closure of the synonym groups of the
    normalized keywords; and the expansion of the list [cs] contains
    [computer science]. *)
Theorem expansion_within_synonym_closure :
  (forall (keywords : list jsstring) (first : Expansion),
      expandKeywords keywords = Some first ->
      exists second,
        expandKeywords (expanded first) = Some second
        /\ (forall x, In x (expanded first) -> In x (expanded second))
        /\ (forall x, In x (expanded second) ->
                      exists k, In k keywords
                                /\ synonym_closure (normalizeKeyword k) x))
  /\ (exists result,
        expandKeywords [js "cs"] = Some result
        /\ In (js "computer science") (expanded result)).
Proof.
  split.
  - intros keywords first Hfirst.
    assert (forall x, In x (expanded first) ->
                      exists k, In k keywords
                                /\ (x = normalizeKeyword k
                                    \/ same_group (normalizeKeyword k) x))
      as Horigin.
    { intros x Hx.
      destruct (expand_from_In keywords _ first x Hfirst Hx) as [[] | H].
      exact H. }
    assert (forall x, In x (expanded first) -> normalizeKeyword x = x)
      as Hnorm.
    { intros x Hx. destruct (Horigin x Hx) as [k [_ [-> | Hg]]].
      - apply normalizeKeyword_idempotent.
      - now apply (same_group_member_normalized (normalizeKeyword k)). }
    assert (forall x, In x (expanded first) ->
                      index KEYWORD_SYNONYMS (normalizeKeyword x)
                      <> Inherited) as Hindex.
    { intros x Hx. rewrite (Hnorm x Hx).
      destruct (Horigin x Hx) as [k [Hk [-> | Hg]]].
      - apply (proj2 (expandKeywords_total keywords)); eauto.
      - now apply (same_group_member_indexable (normalizeKeyword k)). }
    destruct (proj1 (expandKeywords_total (expanded first)) Hindex)
      as [second Hsecond].
    exists second. split; [exact Hsecond|]. split.
    + intros x Hx. apply (expand_from_keeps _ _ second x Hsecond).
      right. exists x. split; [exact Hx | symmetry; now apply Hnorm].
    + intros y Hy.
      destruct (expand_from_In _ _ second y Hsecond Hy) as [[] | H].
      destruct H as [x [Hx Hxy]].
      destruct (Horigin x Hx) as [k [Hk Hkx]].
      exists k. split; [exact Hk|].
      apply rt_trans with (y := x).
      * destruct Hkx as [-> | Hg]; [apply rt_refl | now apply rt_step].
      * rewrite (Hnorm x Hx) in Hxy.
        destruct Hxy as [-> | Hg]; [apply rt_refl | now apply rt_step].
  - eexists. split; [vm_compute; reflexivity|].
    vm_compute. right. left. reflexivity.
Qed.

(** The keyword list [cs]. *)
Lemma expansion_within_synonym_closure_witness :
  exists first second,
    expandKeywords [js "cs"] = Some first
    /\ expandKeywords (expanded first) = Some second
    /\ forall x, In x (expanded second) ->
                 synonym_closure (normalizeKeyword (js "cs")) x.
Proof.
  destruct (expandKeywords [js "cs"]) as [first|] eqn:E;
    [|vm_compute in E; discriminate].
  destruct (proj1 expansion_within_synonym_closure [js "cs"] first E)
    as [second [Hsecond [_ Hclosure]]].
  exists first, second. split; [reflexivity|]. split; [exact Hsecond|].
  intros x Hx. destruct (Hclosure x Hx) as [k [[<- | []] Hk]]. exact Hk.
Defined.

End SearchFacts.

(** ** The scenarios of the unit tests, run on the model *)
Module Scenarios.
Import Reference Fixtures.

Example unknown_program_is_not_found :
  buildEligibilitySnapshot (R := reference_runtime)
    (snapshot_input (applicant "high_school" "bachelor" None None)
                    "non-existent") test_db
  = Failure (js "PROGRAM_NOT_FOUND") (js "البرنامج غير موجود")
            (js "Program not found").
Proof. vm_compute. reflexivity. Qed.

Example english_score_is_reported_missing :
  exists out,
    buildEligibilitySnapshot (R := reference_runtime)
      (snapshot_input (applicant "high_school" "bachelor" (Some (Fin 80)) None)
                      "prog-bachelor") test_db = Success out
    /\ missing_fields out = [js "english_score"]
    /\ status out = needs_review.
Proof.
  eexists. split; [vm_compute; reflexivity|].
  split; vm_compute; reflexivity.
Qed.

Example missing_grade_needs_review :
  exists out,
    buildEligibilitySnapshot (R := reference_runtime)
      (snapshot_input (applicant "high_school" "bachelor" None None)
                      "prog-bachelor") test_db = Success out
    /\ missing_fields out = [js "gpa"; js "english_score"]
    /\ status out = needs_review.
Proof.
  eexists. split; [vm_compute; reflexivity|].
  split; vm_compute; reflexivity.
Qed.

Example low_grade_is_unlikely :
  exists out,
    buildEligibilitySnapshot (R := reference_runtime)
      (snapshot_input
         (applicant "high_school" "bachelor" (Some (Fin 30))
                    (Some {| es_type := js "ielts"; es_score := Fin 6 |}))
         "prog-bachelor") test_db = Success out
    /\ status out = unlikely
    /\ map (fun r => (reason_rule_type r, passed r)) (reasons out)
       = [(js "other", true); (js "gpa_minimum", false);
          (js "language_proficiency", true)].
Proof.
  eexists. split; [vm_compute; reflexivity|].
  split; vm_compute; reflexivity.
Qed.

Example all_rules_met_is_likely_eligible :
  exists out,
    buildEligibilitySnapshot (R := reference_runtime)
      (snapshot_input
         (applicant "high_school" "bachelor" (Some (Fin 80))
                    (Some {| es_type := js "toefl"; es_score := Fin 90 |}))
         "prog-bachelor") test_db = Success out
    /\ status out = likely_eligible.
Proof.
  eexists. split; [vm_compute; reflexivity|]. reflexivity.
Qed.

Example ce_expands_to_computer_engineering :
  exists result,
    expandKeywords [js "ce"] = Some result
    /\ In (js "computer engineering") (expanded result)
    /\ synonymsApplied result <> [].
Proof.
  eexists. split; [vm_compute; reflexivity|]. split.
  - vm_compute. right. left. reflexivity.
  - vm_compute. discriminate.
Qed.

Example normalization_drops_other_letters :
  normalizeKeyword (js "  Bilgisayar Mühendisliği!! ")
  = js "bilgisayar mhendislii".
Proof. vm_compute. reflexivity. Qed.

Example inherited_name_throws : expandKeywords [js "Constructor"] = None.
Proof. vm_compute. reflexivity. Qed.

Example bachelor_timeline_plan :
  exists out,
    buildTimeline 0 (timeline_input "prog-bachelor" (Some (js "sept")))
                  test_db = Success out
    /\ target_intake out = js "September"
    /\ critical_path_items out
       = [js "high_school_diploma"; js "english_proficiency";
          js "high_school_transcript"]
    /\ timeline_assumptions out = [].
Proof.
  eexists. split; [vm_compute; reflexivity|].
  repeat split; vm_compute; reflexivity.
Qed.

End Scenarios.
